(** * GitShame Roaster API: the rule engines and the prompt builder

    A shallow embedding of [server/main.py]: the fallback roast generator
    ([generate_fallback_roasts]), the roastability scorer
    ([analyze_roast_potential]), the prompt builder ([create_roast_prompt])
    and the [/generate-roasts] handler ([generate_roasts]).

    The five analysis bundles are [Dict[str, Any]] in the source, so the
    embedding keeps them dynamically typed: a JSON-shaped [value], Python's
    operators on it, and a [result] that is either a value or a raised
    exception.  The operators are those of CPython 3.11, with the
    interpreter's settings at their defaults. *)

From Stdlib Require Import ZArith List String Ascii Bool Lia Floats DecimalString.
Import ListNotations.

Set Warnings "-inexact-float,-register-all".

Local Open Scope string_scope.
Local Open Scope Z_scope.

(** ** Values, exceptions, results *)

(** What [json] hands to a field typed [Any]: [None], [bool], [int], [float],
    [str], [list] and [dict].  A [dict] keeps its insertion order, so it is an
    association list (keys are distinct in a real [dict]; [lookup] reads the
    first binding).  A [str] is its UTF-8 bytes. *)
Inductive value : Type :=
| VNone
| VBool (b : bool)
| VInt (z : Z)
| VFloat (f : float)
| VStr (s : string)
| VList (l : list value)
| VDict (d : list (string * value)).

Definition dict : Type := list (string * value).

(** The exceptions the modelled code can meet; all are subclasses of
    [Exception].  [ServiceError] stands for whatever the generative-AI client
    raises. *)
Inductive exn : Type :=
| TypeError
| AttributeError
| ValueError
| OverflowError
| HTTPException (status_code : Z) (detail : string)
| ServiceError (what : string).

Inductive result (A : Type) : Type :=
| Ok (a : A)
| Raise (e : exn).

Arguments Ok {A} a.
Arguments Raise {A} e.

Definition bind {A B : Type} (r : result A) (k : A -> result B) : result B :=
  match r with
  | Ok a => k a
  | Raise e => Raise e
  end.

Notation "x <- c ;; k" := (bind c (fun x => k))
  (at level 61, c at next level, right associativity).

(** [try: body / except Exception as e: handler]. *)
Definition try_except {A : Type} (body : result A) (handler : exn -> result A)
  : result A :=
  match body with
  | Ok a => Ok a
  | Raise e => handler e
  end.

Fixpoint mapM {A B : Type} (f : A -> result B) (xs : list A) : result (list B) :=
  match xs with
  | [] => Ok []
  | x :: r => y <- f x ;; ys <- mapM f r ;; Ok (y :: ys)
  end.

(** ** Dictionaries *)

Fixpoint lookup (k : string) (d : dict) : option value :=
  match d with
  | [] => None
  | (k', v) :: r => if String.eqb k k' then Some v else lookup k r
  end.

(** [d.get(k, default)] on a [dict]. *)
Definition dict_get (d : dict) (k : string) (default : value) : value :=
  match lookup k d with
  | Some v => v
  | None => default
  end.

Definition keys (d : dict) : list string := map fst d.
Definition values (d : dict) : list value := map snd d.

(** [v.get(k, default)], [v.keys()], [v.values()] on an arbitrary object:
    only a [dict] has these attributes. *)
Definition py_get (v : value) (k : string) (default : value) : result value :=
  match v with
  | VDict d => Ok (dict_get d k default)
  | _ => Raise AttributeError
  end.

Definition py_keys (v : value) : result (list string) :=
  match v with
  | VDict d => Ok (keys d)
  | _ => Raise AttributeError
  end.

Definition py_values (v : value) : result (list value) :=
  match v with
  | VDict d => Ok (values d)
  | _ => Raise AttributeError
  end.

(** ** Numbers *)

(** [bool] is a subclass of [int]: [True] counts as 1 in arithmetic and in
    comparisons. *)
Inductive number : Type :=
| NInt (z : Z)
| NFloat (f : float).

Definition as_number (v : value) : option number :=
  match v with
  | VBool b => Some (NInt (if b then 1 else 0))
  | VInt z => Some (NInt z)
  | VFloat f => Some (NFloat f)
  | _ => None
  end.

(** [float(z)]: round to nearest even; an [int] that rounds to 2^1024 or
    beyond raises [OverflowError]. *)
Definition float_limit : Z := 2 ^ 1024 - 2 ^ 970.

Definition float_of_Z (z : Z) : result float :=
  if Z.abs z <? float_limit
  then Ok (SF2Prim (binary_normalize prec emax z 0 false))
  else Raise OverflowError.

(** Python compares an [int] with a [float] exactly, without converting the
    [int].  [None] is the unordered case (the float is a NaN). *)
Definition Z_float_compare (z : Z) (f : float) : option comparison :=
  match Prim2SF f with
  | S754_nan => None
  | S754_zero _ => Some (z ?= 0)
  | S754_infinity neg => Some (if neg then Gt else Lt)
  | S754_finite neg m e =>
      let v := if neg then Z.neg m else Z.pos m in
      if 0 <=? e then Some (z ?= v * 2 ^ e) else Some (z * 2 ^ (- e) ?= v)
  end.

Definition float_compare (f g : float) : option comparison :=
  match PrimFloat.compare f g with
  | FEq => Some Eq
  | FLt => Some Lt
  | FGt => Some Gt
  | FNotComparable => None
  end.

Definition number_compare (a b : number) : option comparison :=
  match a, b with
  | NInt x, NInt y => Some (x ?= y)
  | NInt x, NFloat g => Z_float_compare x g
  | NFloat f, NInt y => option_map CompOpp (Z_float_compare y f)
  | NFloat f, NFloat g => float_compare f g
  end.

Definition is_Lt (o : option comparison) : bool :=
  match o with Some Lt => true | _ => false end.
Definition is_Gt (o : option comparison) : bool :=
  match o with Some Gt => true | _ => false end.
Definition is_Eq (o : option comparison) : bool :=
  match o with Some Eq => true | _ => false end.

(** [a + b] on numbers, as [sum] uses it. *)
Definition number_add (a b : number) : result number :=
  match a, b with
  | NInt x, NInt y => Ok (NInt (x + y))
  | NInt x, NFloat g => f <- float_of_Z x ;; Ok (NFloat (PrimFloat.add f g))
  | NFloat f, NInt y => g <- float_of_Z y ;; Ok (NFloat (PrimFloat.add f g))
  | NFloat f, NFloat g => Ok (NFloat (PrimFloat.add f g))
  end.

Definition of_number (n : number) : value :=
  match n with
  | NInt z => VInt z
  | NFloat f => VFloat f
  end.

Definition py_add (a b : value) : result value :=
  match as_number a, as_number b with
  | Some x, Some y => n <- number_add x y ;; Ok (of_number n)
  | _, _ => Raise TypeError
  end.

(** [sum(vs)]: starts from the [int] 0 and adds from left to right.  (From
    CPython 3.12 on, a run of floats is added with error compensation, which
    can change the last bit of a float total; it raises in the same cases,
    totals of [int]s are exact either way, and a total of zeros is zero.) *)
Fixpoint sum_from (acc : value) (vs : list value) : result value :=
  match vs with
  | [] => Ok acc
  | v :: r => acc' <- py_add acc v ;; sum_from acc' r
  end.

Definition py_sum (vs : list value) : result value := sum_from (VInt 0) vs.

(** [v * c] for a float constant [c]. *)
Definition py_mul_float (v : value) (c : float) : result value :=
  match as_number v with
  | Some (NInt z) => f <- float_of_Z z ;; Ok (VFloat (PrimFloat.mul f c))
  | Some (NFloat f) => Ok (VFloat (PrimFloat.mul f c))
  | None => Raise TypeError
  end.

(** ** Equality, ordering, truthiness *)

(** [a == b]: never raises on these types.  Numbers compare by value across
    [bool], [int] and [float]; lists elementwise; dicts by key, whatever the
    order. *)
Fixpoint py_eq (a b : value) {struct a} : bool :=
  match a, b with
  | VNone, VNone => true
  | VStr s, VStr t => String.eqb s t
  | VList la, VList lb =>
      (fix eq_items (xs ys : list value) {struct xs} : bool :=
         match xs, ys with
         | [], [] => true
         | x :: xs', y :: ys' => py_eq x y && eq_items xs' ys'
         | _, _ => false
         end) la lb
  | VDict da, VDict db =>
      Nat.eqb (List.length da) (List.length db) &&
      (fix eq_entries (xs : list (string * value)) {struct xs} : bool :=
         match xs with
         | [] => true
         | (k, v) :: xs' =>
             match lookup k db with
             | Some w => py_eq v w
             | None => false
             end && eq_entries xs'
         end) da
  | _, _ =>
      match as_number a, as_number b with
      | Some x, Some y => is_Eq (number_compare x y)
      | _, _ => false
      end
  end.

(** The order behind [<] and [>]: numbers by value, strings by code point
    (which is the byte order of their UTF-8), lists lexicographically on the
    first pair of unequal items; anything else raises [TypeError].  [Ok None]
    is the unordered case, where both [<] and [>] are false. *)
Fixpoint py_order (a b : value) {struct a} : result (option comparison) :=
  match a, b with
  | VStr s, VStr t => Ok (Some (String.compare s t))
  | VList la, VList lb =>
      (fix order_items (xs ys : list value) {struct xs}
         : result (option comparison) :=
         match xs, ys with
         | [], [] => Ok (Some Eq)
         | [], _ :: _ => Ok (Some Lt)
         | _ :: _, [] => Ok (Some Gt)
         | x :: xs', y :: ys' =>
             if py_eq x y then order_items xs' ys' else py_order x y
         end) la lb
  | _, _ =>
      match as_number a, as_number b with
      | Some x, Some y => Ok (number_compare x y)
      | _, _ => Raise TypeError
      end
  end.

Definition py_lt (a b : value) : result bool :=
  o <- py_order a b ;; Ok (is_Lt o).

Definition py_gt (a b : value) : result bool :=
  o <- py_order a b ;; Ok (is_Gt o).

(** [bool(v)], as [if v:], [not v] and [v or default] use it. *)
Definition truthy (v : value) : bool :=
  match v with
  | VNone => false
  | VBool b => b
  | VInt z => negb (z =? 0)
  | VFloat f => negb (PrimFloat.eqb f 0)
  | VStr s => negb (String.eqb s "")
  | VList l => match l with [] => false | _ => true end
  | VDict d => match d with [] => false | _ => true end
  end.

(** [s or default] for an [Optional[str]]. *)
Definition str_or (s : option string) (default : string) : string :=
  match s with
  | Some (String c r) => String c r
  | _ => default
  end.

(** ** Sequences *)

Definition is_continuation_byte (c : ascii) : bool :=
  let n := nat_of_ascii c in (128 <=? n)%nat && (n <? 192)%nat.

Definition starts_with_continuation (s : string) : bool :=
  match s with
  | String c _ => is_continuation_byte c
  | EmptyString => false
  end.

(** The code points of a UTF-8 string, each as the string of its bytes. *)
Fixpoint code_points (s : string) : list string :=
  match s with
  | EmptyString => []
  | String c r =>
      match code_points r with
      | p :: ps =>
          if starts_with_continuation r then String c p :: ps
          else String c EmptyString :: p :: ps
      | [] => [String c EmptyString]
      end
  end.

(** [v[:n]]: a list or a string can be sliced, nothing else here can
    ([None] and numbers are not subscriptable; a [dict] rejects the slice as
    a key, with [TypeError] up to CPython 3.11 and [KeyError] after, both
    caught by [except Exception]). *)
Definition py_slice_to (n : nat) (v : value) : result value :=
  match v with
  | VList l => Ok (VList (firstn n l))
  | VStr s => Ok (VStr (String.concat "" (firstn n (code_points s))))
  | _ => Raise TypeError
  end.

(** The items [for x in v] yields, for the two kinds of value a slice can
    return. *)
Definition py_items (v : value) : result (list value) :=
  match v with
  | VList l => Ok l
  | VStr s => Ok (map VStr (code_points s))
  | _ => Raise TypeError
  end.

(** [sep.join(items)]: every item must be a [str]. *)
Definition as_str (v : value) : result string :=
  match v with
  | VStr s => Ok s
  | _ => Raise TypeError
  end.

Definition py_join (sep : string) (items : list value) : result string :=
  ss <- mapM as_str items ;; Ok (String.concat sep ss).

(** ** Formatting *)

(** The decimal numeral of an integer. *)
Definition decimal (z : Z) : string := NilZero.string_of_int (Z.to_int z).

(** [str(z)] for an [int]: CPython (from 3.11 on, and the security releases
    of the older branches) refuses to convert an [int] of more than 4300
    decimal digits, the sign not counted, and raises [ValueError].  The
    limit is [sys.get_int_max_str_digits()], which [main.py] leaves at its
    default.  An [int] has more than 4300 digits when its magnitude is
    [10 ^ 4300] or more. *)
Definition int_str_limit : Z := Eval vm_compute in 10 ^ 4300.

Definition fits_str (z : Z) : bool := Z.abs z <? int_str_limit.

Definition int_str (z : Z) : result string :=
  if fits_str z then Ok (decimal z) else Raise ValueError.

(** [format(f, ".1f")] for a float: the exact value rounded half-to-even to
    one decimal.  Formatting a float has no digit limit. *)
Definition round_half_even (n d : Z) : Z :=
  let q := n / d in
  let r := n mod d in
  if 2 * r <? d then q
  else if d <? 2 * r then q + 1
  else if Z.even q then q else q + 1.

Definition fixed1_magnitude (m : positive) (e : Z) : string :=
  let tenths :=
    if 0 <=? e then 10 * Z.pos m * 2 ^ e
    else round_half_even (10 * Z.pos m) (2 ^ (- e)) in
  decimal (tenths / 10) ++ "." ++ decimal (tenths mod 10).

Definition format_float_1f (f : float) : string :=
  match Prim2SF f with
  | S754_nan => "nan"
  | S754_infinity neg => if neg then "-inf" else "inf"
  | S754_zero neg => if neg then "-0.0" else "0.0"
  | S754_finite neg m e =>
      (if neg then "-" else "") ++ fixed1_magnitude m e
  end.

(** [f"{v:.1f}"]: an [int] (or [bool]) is converted to [float] first; [None]
    and containers reject the format spec with [TypeError], a [str] with
    [ValueError]. *)
Definition py_format_1f (v : value) : result string :=
  match v with
  | VStr _ => Raise ValueError
  | _ =>
      match as_number v with
      | Some (NInt z) => f <- float_of_Z z ;; Ok (format_float_1f f)
      | Some (NFloat f) => Ok (format_float_1f f)
      | None => Raise TypeError
      end
  end.

(** [commit_times.get('night', 0) > sum(commit_times.values()) * fraction]:
    the night-owl test, written with 0.4 in [generate_fallback_roasts] and
    with 0.5 in [analyze_roast_potential]. *)
Definition night_share_exceeds (commit_times : value) (fraction : float)
  : result bool :=
  night <- py_get commit_times "night" (VInt 0) ;;
  counts <- py_values commit_times ;;
  total <- py_sum counts ;;
  threshold <- py_mul_float total fraction ;;
  py_gt night threshold.

(** ** The request model *)

Record GitHubUserData : Type := {
  login : string;
  name : option string;
  bio : option string;
  public_repos : Z;
  followers : Z;
  following : Z;
  created_at : string;
  avatar_url : string
}.

Record GitHubRepo : Type := {
  repo_name : string;
  description : option string;
  language : option string;
  stargazers_count : Z;
  forks_count : Z;
  repo_created_at : string;
  updated_at : string
}.

Record GitHubCommit : Type := {
  message : string;
  date : string
}.

Record UserAnalysis : Type := {
  commitPatterns : dict;
  emojiUsage : dict;
  commitLanguage : dict;
  repoAnalysis : dict;
  userStats : dict
}.

Record RoastRequest : Type := {
  user : GitHubUserData;
  repos : list GitHubRepo;
  commits : list GitHubCommit;
  analysis : UserAnalysis
}.

(** The structured output asked of the generative model. *)
Record RoastLine : Type := {
  text : string;
  category : string;
  severity : string
}.

Record GeneratedRoasts : Type := {
  ai_roasts : list RoastLine;
  ai_overall_tone : string
}.

(** The body of a [/generate-roasts] response. *)
Record RoastResponse : Type := {
  roasts : list string;
  source : string;
  overall_tone : string;
  metadata : option (list string * list string)
}.

(** The body of an [/analyze-roast-potential] response. *)
Record RoastPotential : Type := {
  roast_score : Z;
  roastability_level : string;
  potential_message : string;
  roast_factors : list string;
  suggestions : list string
}.

(** ** The roast texts, byte for byte as in the source *)

Definition new_account_roast (login : string) : string :=
  "Welcome to GitHub, " ++ login ++ "! Still figuring out what a commit is, I see. üê£".

Definition veteran_roast (years : string) : string :=
  "Been here " ++ years ++ " years and still haven't learned to write decent commit messages? Classic! üë¥".

Definition night_owl_roast : string :=
  "I see you're a fellow member of the '3 AM commit club'. Sleep is overrated anyway! ü¶â".

Definition emoji_overuse_roast : string :=
  "Your commits have more emojis than a teenager's text messages. Very professional! üé≠".

Definition emoji_drought_roast : string :=
  "Zero emojis in your commits? What are you, a robot? Even robots use emojis now! ü§ñ".

Definition abandoned_repos_roast (count : string) : string :=
  "You have " ++ count ++ " abandoned repos. GitHub isn't a graveyard for your coding dreams! ‚ö∞Ô∏è".

Definition follow_ratio_roast : string :=
  "Following more people than follow you back? That's the developer equivalent of unrequited love! üíî".

Definition filler_roasts : list string :=
  [ "Your code commits tell a story... mostly about debugging at 2 AM! üìö";
    "I've seen more organization in a tornado than in your repository structure! üå™Ô∏è";
    "Your commit messages are like modern art - nobody understands them, but everyone pretends they do! üé®" ].

Definition highly_message : string :=
  "This developer is a goldmine for roasts! üî•".

Definition moderately_message : string :=
  "Some good roast material here. üòè".

Definition minimally_message : string :=
  "This developer is suspiciously well-behaved... ü§î".

Definition fixed_suggestions : list string :=
  [ "Try committing at 3 AM for bonus roast points!";
    "Add more emojis to your commit messages!";
    "Create a repo called 'my-awesome-project' and abandon it!";
    "Write commit messages like 'fix stuff' and 'idk anymore'!" ].

Definition missing_key_detail : string :=
  "Gemini API key not configured. Please set GEMINI_API_KEY environment variable.".

Definition nl : string := String (ascii_of_nat 10) EmptyString.

(** ** What the interpreter supplies *)

(** [repr] of a [float], [repr] of a [list] or a [dict], and floor division
    of two floats, are the interpreter's; the code below only passes their
    results on into a text, so they are taken as given.  [repr] of a float
    always returns; [repr] of a container can raise (an [int] inside it may
    be beyond the digit limit). *)
Record interpreter : Type := {
  float_repr : float -> string;
  container_repr : value -> result string;
  float_floordiv : float -> float -> float
}.

Section Server.

Variable py : interpreter.

(** [str(v)], which is what [f"{v}"] inserts. *)
Definition py_str (v : value) : result string :=
  match v with
  | VNone => Ok "None"
  | VBool true => Ok "True"
  | VBool false => Ok "False"
  | VInt z => int_str z
  | VStr s => Ok s
  | VFloat f => Ok (py.(float_repr) f)
  | VList _ | VDict _ => py.(container_repr) v
  end.

(** [v // k] for an [int] constant [k > 0]. *)
Definition py_floordiv (v : value) (k : Z) : result value :=
  match as_number v with
  | Some (NInt z) => Ok (VInt (z / k))
  | Some (NFloat f) =>
      g <- float_of_Z k ;; Ok (VFloat (py.(float_floordiv) f g))
  | None => Raise TypeError
  end.

(** [max(keys, key=key)]: the first key whose value no later value exceeds. *)
Fixpoint max_by (key : string -> value) (best : string) (best_val : value)
  (rest : list string) : result string :=
  match rest with
  | [] => Ok best
  | k :: r =>
      let v := key k in
      gt <- py_gt v best_val ;;
      if gt then max_by key k v r else max_by key best best_val r
  end.

(** [max(commit_times, key=commit_times.get)]. *)
Definition py_max_key (commit_times : value) : result string :=
  match commit_times with
  | VDict d =>
      let key := fun k => dict_get d k VNone in
      match keys d with
      | k :: r => max_by key k (key k) r
      | [] => Raise ValueError
      end
  | _ => Raise AttributeError
  end.

(** ** [create_roast_prompt] *)

Definition repo_line (repo : GitHubRepo) : string :=
  "- " ++ repo.(repo_name) ++ ": " ++ str_or repo.(description) "No description" ++ " (" ++ str_or repo.(language) "Unknown language" ++ ")".

Definition create_roast_prompt (user_data : RoastRequest) : result string :=
  let user := user_data.(user) in
  let repos := user_data.(repos) in
  let commits := user_data.(commits) in
  let analysis := user_data.(analysis) in
  (* Extract key insights *)
  let account_age := dict_get analysis.(userStats) "accountAge" (VInt 0) in
  let repo_count := Z.of_nat (List.length repos) in
  let commit_count := Z.of_nat (List.length commits) in
  (* Most used languages *)
  language_keys <- py_keys (dict_get analysis.(repoAnalysis) "languages" (VDict [])) ;;
  let languages := firstn 3 language_keys in
  (* Commit patterns *)
  let commit_times := dict_get analysis.(commitPatterns) "timeOfDay" (VDict []) in
  most_active_time <-
    (if truthy commit_times then py_max_key commit_times else Ok "unknown") ;;
  (* Questionable commits *)
  questionable_commits <-
    py_slice_to 5
      (dict_get analysis.(commitLanguage) "questionableMessages" (VList [])) ;;
  (* Emoji usage *)
  let emoji_count := dict_get analysis.(emojiUsage) "count" (VInt 0) in
  let top_emojis := dict_get analysis.(emojiUsage) "topEmojis" (VList []) in
  (* Repo patterns *)
  let abandoned_repos := dict_get analysis.(repoAnalysis) "abandonedRepos" (VInt 0) in
  let one_commit_wonders :=
    dict_get analysis.(repoAnalysis) "oneCommitWonders" (VInt 0) in
  let naming_patterns :=
    dict_get analysis.(repoAnalysis) "namingPatterns" (VList []) in
  (* Social metrics *)
  let follow_ratio := dict_get analysis.(userStats) "followRatio" (VInt 0) in
  let repo_to_star_ratio :=
    dict_get analysis.(userStats) "repoToStarRatio" (VInt 0) in
  (* The replacement fields of the f-string, in the order it evaluates them *)
  account_age_shown <- py_str account_age ;;
  public_repos_shown <- int_str user.(public_repos) ;;
  followers_shown <- int_str user.(followers) ;;
  following_shown <- int_str user.(following) ;;
  let languages_shown :=
    match languages with
    | [] => "None detected"
    | _ => String.concat ", " languages
    end in
  commit_count_shown <- int_str commit_count ;;
  emoji_count_shown <- py_str emoji_count ;;
  top3 <- py_slice_to 3 top_emojis ;;
  top3_items <- py_items top3 ;;
  emojis <- mapM (fun e => py_get e "emoji" (VStr "")) top3_items ;;
  emojis_shown <- py_join ", " emojis ;;
  repo_count_shown <- int_str repo_count ;;
  abandoned_repos_shown <- py_str abandoned_repos ;;
  one_commit_wonders_shown <- py_str one_commit_wonders ;;
  naming3 <- py_slice_to 3 naming_patterns ;;
  naming_items <- py_items naming3 ;;
  naming_shown <- py_join ", " naming_items ;;
  stars_shown <- py_format_1f repo_to_star_ratio ;;
  follow_shown <- py_format_1f follow_ratio ;;
  questionable3 <- py_slice_to 3 questionable_commits ;;
  questionable_items <- py_items questionable3 ;;
  questionable_lines <-
    mapM (fun msg => msg_shown <- py_str msg ;; Ok ("- " ++ msg_shown))
      questionable_items ;;
  let questionable_shown := String.concat nl questionable_lines in
  let repos_shown := String.concat nl (map repo_line (firstn 3 repos)) in
  Ok (String.concat nl
    [ "";
      "You are a witty, sarcastic GitHub code reviewer who specializes in roasting developers based on their GitHub activity. ";
      "Create 5-8 clever, humorous roasts for this GitHub user. Be playful and teasing, but never mean-spirited or personally attacking.";
      "";
      "USER PROFILE:";
      "- Username: " ++ user.(login);
      "- Name: " ++ str_or user.(name) "No name provided";
      "- Bio: " ++ str_or user.(bio) "No bio";
      "- Account Age: " ++ account_age_shown ++ " days";
      "- Public Repos: " ++ public_repos_shown;
      "- Followers: " ++ followers_shown;
      "- Following: " ++ following_shown;
      "";
      "CODING PATTERNS:";
      "- Primary Languages: " ++ languages_shown;
      "- Most Active Time: " ++ most_active_time;
      "- Total Commits Analyzed: " ++ commit_count_shown;
      "- Emoji Usage: " ++ emoji_count_shown ++ " emojis found";
      "- Top Emojis: " ++ emojis_shown;
      "";
      "REPOSITORY INSIGHTS:";
      "- Total Repos: " ++ repo_count_shown;
      "- Abandoned Repos: " ++ abandoned_repos_shown;
      "- One-Commit Wonders: " ++ one_commit_wonders_shown;
      "- Naming Patterns: " ++ naming_shown;
      "- Average Stars per Repo: " ++ stars_shown;
      "";
      "SOCIAL METRICS:";
      "- Follow Ratio: " ++ follow_shown ++ " (followers/following)";
      "";
      "QUESTIONABLE COMMIT MESSAGES:";
      questionable_shown;
      "";
      "RECENT REPOS:";
      repos_shown;
      "";
      "Create roasts that reference specific patterns you see. Focus on:";
      "1. Coding habits and commit patterns";
      "2. Repository naming and organization";
      "3. Commit message quality";
      "4. Social coding behavior";
      "5. Language choices and project patterns";
      "";
      "Make each roast:";
      "- Specific to their actual GitHub activity";
      "- Clever and witty, not mean";
      "- Tech-savvy and programmer-humor focused";
      "- About 1-2 sentences each";
      "";
      "Categories for roasts:";
      "- coding_habits: About their coding patterns, commit times, etc.";
      "- repo_patterns: About their repositories, naming, organization";
      "- commit_messages: About their commit message quality";
      "- social_metrics: About followers, stars, social coding behavior";
      "- general: Overall developer personality/style";
      "";
      "Severity levels:";
      "- mild: Gentle teasing";
      "- medium: More pointed but still playful";
      "- savage: Brutally honest but still humorous";
      "" ]).

(** ** [generate_fallback_roasts] *)

Definition generate_fallback_roasts (request : RoastRequest)
  : result (list string) :=
  let user := request.(user) in
  let analysis := request.(analysis) in
  let roasts : list string := [] in
  (* Account age roasts *)
  let account_age := dict_get analysis.(userStats) "accountAge" (VInt 0) in
  is_new <- py_lt account_age (VInt 365) ;;
  roasts <-
    (if is_new then Ok (roasts ++ [new_account_roast user.(login)])%list
     else
       is_old <- py_gt account_age (VInt 3650) ;;
       if is_old then
         years <- py_floordiv account_age 365 ;;
         years_shown <- py_str years ;;
         Ok (roasts ++ [veteran_roast years_shown])%list
       else Ok roasts) ;;
  (* Commit pattern roasts *)
  let commit_times := dict_get analysis.(commitPatterns) "timeOfDay" (VDict []) in
  night_owl <- night_share_exceeds commit_times 0.4 ;;
  let roasts := (if night_owl then roasts ++ [night_owl_roast] else roasts)%list in
  (* Emoji roasts *)
  let emoji_count := dict_get analysis.(emojiUsage) "count" (VInt 0) in
  overuse <- py_gt emoji_count (VInt 10) ;;
  let roasts :=
    (if overuse then roasts ++ [emoji_overuse_roast]
     else if py_eq emoji_count (VInt 0) then roasts ++ [emoji_drought_roast]
     else roasts)%list in
  (* Repository roasts *)
  let abandoned_repos := dict_get analysis.(repoAnalysis) "abandonedRepos" (VInt 0) in
  abandoned <- py_gt abandoned_repos (VInt 0) ;;
  roasts <-
    (if abandoned then
       abandoned_repos_shown <- py_str abandoned_repos ;;
       Ok (roasts ++ [abandoned_repos_roast abandoned_repos_shown])%list
     else Ok roasts) ;;
  (* Follow ratio roasts *)
  let follow_ratio := dict_get analysis.(userStats) "followRatio" (VInt 0) in
  lonely <- py_lt follow_ratio (VFloat 0.5) ;;
  let roasts := (if lonely then roasts ++ [follow_ratio_roast] else roasts)%list in
  (* Add a few more generic ones if we don't have enough *)
  let roasts :=
    (if (List.length roasts <? 3)%nat then roasts ++ filler_roasts else roasts)%list in
  Ok (firstn 6 roasts).

(** ** [/generate-roasts] *)

(** The response both fallback exits build. *)
Definition fallback_response (request : RoastRequest) : result RoastResponse :=
  fallback_roasts <- generate_fallback_roasts request ;;
  Ok {| roasts := fallback_roasts;
        source := "fallback";
        overall_tone := "mysterious";
        metadata := None |}.

(** [not os.getenv("GEMINI_API_KEY")]: the variable is unset or empty. *)
Definition key_missing (api_key : option string) : bool :=
  match api_key with
  | Some (String _ _) => false
  | _ => true
  end.

(** The handler, with its two inputs from outside made explicit: the value of
    the environment variable, and [generate_content], the client call together
    with [response.parsed] ([None] when nothing could be parsed). *)
Definition generate_roasts (api_key : option string)
  (generate_content : string -> result (option GeneratedRoasts))
  (request : RoastRequest) : result RoastResponse :=
  try_except
    ((* Check if API key is available *)
     _ <- (if key_missing api_key
           then Raise (HTTPException 500 missing_key_detail)
           else Ok tt) ;;
     (* Create the prompt *)
     prompt <- create_roast_prompt request ;;
     (* Generate roasts with structured output *)
     roast_data <- generate_content prompt ;;
     match roast_data with
     | None => fallback_response request
     | Some data =>
         match data.(ai_roasts) with
         | [] => fallback_response request
         | _ =>
             Ok {| roasts := map text data.(ai_roasts);
                   source := "ai";
                   overall_tone := data.(ai_overall_tone);
                   metadata :=
                     Some (map category data.(ai_roasts),
                           map severity data.(ai_roasts)) |}
         end
     end)
    (fun e => fallback_response request).

(** ** [/analyze-roast-potential] *)

(** [roast_score += weight; roast_factors.append(tag)] on the pair of the two
    locals. *)
Definition score_state : Type := (Z * list string)%type.

Definition triggered (weight : Z) (tag : string) (st : score_state)
  : score_state :=
  (fst st + weight, (snd st ++ [tag])%list).

Definition analyze_roast_potential (request : RoastRequest)
  : result RoastPotential :=
  let analysis := request.(analysis) in
  let st : score_state := (0, []) in
  (* Calculate roastability score *)
  let st :=
    if truthy (dict_get analysis.(commitLanguage) "questionableMessages" (VList []))
    then triggered 20 "questionable_commits" st else st in
  overuse <- py_gt (dict_get analysis.(emojiUsage) "count" (VInt 0)) (VInt 15) ;;
  let st :=
    if overuse then triggered 15 "emoji_overuse" st
    else if py_eq (dict_get analysis.(emojiUsage) "count" (VInt 0)) (VInt 0)
    then triggered 10 "emoji_drought" st
    else st in
  abandonment <-
    py_gt (dict_get analysis.(repoAnalysis) "abandonedRepos" (VInt 0)) (VInt 2) ;;
  let st := if abandonment then triggered 25 "repo_abandonment" st else st in
  awkward <-
    py_lt (dict_get analysis.(userStats) "followRatio" (VInt 1)) (VFloat 0.3) ;;
  let st := if awkward then triggered 15 "social_awkwardness" st else st in
  let commit_times := dict_get analysis.(commitPatterns) "timeOfDay" (VDict []) in
  night_owl <- night_share_exceeds commit_times 0.5 ;;
  let st := if night_owl then triggered 20 "night_owl_coding" st else st in
  lazy <-
    py_lt (dict_get analysis.(commitLanguage) "averageLength" (VInt 0)) (VInt 10) ;;
  let st := if lazy then triggered 10 "lazy_commit_messages" st else st in
  let roast_score := fst st in
  let roast_factors := snd st in
  (* Determine roastability level *)
  let '(level, message) :=
    if 60 <=? roast_score then ("highly_roastable", highly_message)
    else if 30 <=? roast_score then ("moderately_roastable", moderately_message)
    else ("minimally_roastable", minimally_message) in
  Ok {| roast_score := roast_score;
        roastability_level := level;
        potential_message := message;
        roast_factors := roast_factors;
        suggestions := fixed_suggestions |}.

End Server.

(** ** Which requests are well typed *)

(** The analysis bundles accept any JSON value under any key.  The rule
    engines compare some of these values with numbers and print some, and
    the prompt builder prints, formats, slices and joins some of them; the
    predicates below say which values those operations accept, reading each
    key with the default the code uses for it. *)

Definition is_number (v : value) : bool :=
  match as_number v with
  | Some _ => true
  | None => false
  end.

(** The magnitude of an [int] (or [bool]); 0 for anything else. *)
Definition int_magnitude (v : value) : Z :=
  match as_number v with
  | Some (NInt z) => Z.abs z
  | _ => 0
  end.

(** A number that [float()] accepts: any [float], or an [int] short of the
    overflow limit. *)
Definition is_float_convertible (v : value) : bool :=
  is_number v && (int_magnitude v <? float_limit).

(** [timeOfDay] is a mapping of numbers. *)
Definition is_number_dict (v : value) : bool :=
  match v with
  | VDict d => forallb is_number (values d)
  | _ => false
  end.

(** ... whose [int]s, taken together, stay short of the float overflow
    limit, so that neither [sum] nor the product with the fraction
    overflows. *)
Definition is_count_dict (v : value) : bool :=
  match v with
  | VDict d =>
      forallb is_number (values d) &&
      (fold_right Z.add 0 (map int_magnitude (values d)) <? float_limit)
  | _ => false
  end.

Definition is_dict (v : value) : bool :=
  match v with VDict _ => true | _ => false end.

Definition is_str (v : value) : bool :=
  match v with VStr _ => true | _ => false end.

Definition is_list_of (p : value -> bool) (v : value) : bool :=
  match v with
  | VList l => forallb p l
  | _ => false
  end.

(** An entry of [topEmojis]: an object whose ["emoji"], if any, is a string. *)
Definition is_emoji_entry (v : value) : bool :=
  match v with
  | VDict e => is_str (dict_get e "emoji" (VStr ""))
  | _ => false
  end.

(** A value whose [str] is settled by its own kind: not a container, and
    if an [int], one within the digit limit. *)
Definition is_printable (v : value) : bool :=
  match v with
  | VInt z => fits_str z
  | VList _ | VDict _ => false
  | VNone | VBool _ | VFloat _ | VStr _ => true
  end.

(** [accountAge // 365] can be printed: for an [int] (or [bool]) age the
    quotient is within the digit limit; for a [float] age it is a float. *)
Definition years_printable (v : value) : bool :=
  match as_number v with
  | Some (NInt z) => fits_str (z / 365)
  | _ => true
  end.

Definition fallback_typed (request : RoastRequest) : bool :=
  let analysis := request.(analysis) in
  is_number (dict_get analysis.(userStats) "accountAge" (VInt 0)) &&
  years_printable (dict_get analysis.(userStats) "accountAge" (VInt 0)) &&
  is_count_dict (dict_get analysis.(commitPatterns) "timeOfDay" (VDict [])) &&
  is_number (dict_get analysis.(emojiUsage) "count" (VInt 0)) &&
  is_number (dict_get analysis.(repoAnalysis) "abandonedRepos" (VInt 0)) &&
  is_printable (dict_get analysis.(repoAnalysis) "abandonedRepos" (VInt 0)) &&
  is_number (dict_get analysis.(userStats) "followRatio" (VInt 0)).

Definition scorer_typed (request : RoastRequest) : bool :=
  let analysis := request.(analysis) in
  is_number (dict_get analysis.(emojiUsage) "count" (VInt 0)) &&
  is_number (dict_get analysis.(repoAnalysis) "abandonedRepos" (VInt 0)) &&
  is_number (dict_get analysis.(userStats) "followRatio" (VInt 1)) &&
  is_count_dict (dict_get analysis.(commitPatterns) "timeOfDay" (VDict [])) &&
  is_number (dict_get analysis.(commitLanguage) "averageLength" (VInt 0)).

(** The integers [create_roast_prompt] prints besides the analysis values:
    the user's three counters and the two list lengths. *)
Definition counters_printable (request : RoastRequest) : bool :=
  fits_str request.(user).(public_repos) &&
  fits_str request.(user).(followers) &&
  fits_str request.(user).(following) &&
  fits_str (Z.of_nat (List.length request.(commits))) &&
  fits_str (Z.of_nat (List.length request.(repos))).

Definition prompt_typed (request : RoastRequest) : bool :=
  let analysis := request.(analysis) in
  counters_printable request &&
  is_printable (dict_get analysis.(userStats) "accountAge" (VInt 0)) &&
  is_printable (dict_get analysis.(emojiUsage) "count" (VInt 0)) &&
  is_printable (dict_get analysis.(repoAnalysis) "abandonedRepos" (VInt 0)) &&
  is_printable (dict_get analysis.(repoAnalysis) "oneCommitWonders" (VInt 0)) &&
  is_dict (dict_get analysis.(repoAnalysis) "languages" (VDict [])) &&
  is_number_dict (dict_get analysis.(commitPatterns) "timeOfDay" (VDict [])) &&
  is_list_of is_printable
    (dict_get analysis.(commitLanguage) "questionableMessages" (VList [])) &&
  is_list_of is_emoji_entry
    (dict_get analysis.(emojiUsage) "topEmojis" (VList [])) &&
  is_list_of is_str
    (dict_get analysis.(repoAnalysis) "namingPatterns" (VList [])) &&
  is_float_convertible
    (dict_get analysis.(userStats) "repoToStarRatio" (VInt 0)) &&
  is_float_convertible (dict_get analysis.(userStats) "followRatio" (VInt 0)).

(** ** Reading the results *)

(** The weight each factor tag stands for in the score. *)
Definition factor_weight (tag : string) : Z :=
  if String.eqb tag "questionable_commits" then 20
  else if String.eqb tag "emoji_overuse" then 15
  else if String.eqb tag "emoji_drought" then 10
  else if String.eqb tag "repo_abandonment" then 25
  else if String.eqb tag "social_awkwardness" then 15
  else if String.eqb tag "night_owl_coding" then 20
  else if String.eqb tag "lazy_commit_messages" then 10
  else 0.

Definition total_weight (tags : list string) : Z :=
  fold_right Z.add 0 (map factor_weight tags).

(** What one rule of the fallback generator may append: nothing, or one of
    the texts it can produce. *)
Definition zero_or_one (produced : list string) (texts : string -> Prop) : Prop :=
  produced = [] \/ exists t, texts t /\ produced = [t].

(** The roasts of the five rule blocks, in the order the blocks run. *)
Definition in_rule_order (the_login : string) (rules : list string) : Prop :=
  exists age night emoji abandoned follow,
    rules = (age ++ night ++ emoji ++ abandoned ++ follow)%list /\
    zero_or_one age
      (fun t => t = new_account_roast the_login \/
                exists years, t = veteran_roast years) /\
    zero_or_one night (fun t => t = night_owl_roast) /\
    zero_or_one emoji
      (fun t => t = emoji_overuse_roast \/ t = emoji_drought_roast) /\
    zero_or_one abandoned (fun t => exists count, t = abandoned_repos_roast count) /\
    zero_or_one follow (fun t => t = follow_ratio_roast).

(** The post-pass and the final slice, as a function of what the rules
    produced. *)
Definition padded (rules : list string) : list string :=
  firstn 6
    (if (List.length rules <? 3)%nat then rules ++ filler_roasts else rules)%list.

(** ** Sample requests *)

(** The payload of [integration_test.py]. *)
Definition sample_user : GitHubUserData :=
  {| login := "testuser";
     name := Some "Test Developer";
     bio := Some "I code at 3 AM and drink too much coffee";
     public_repos := 15;
     followers := 42;
     following := 200;
     created_at := "2020-01-15T00:00:00Z";
     avatar_url := "https://github.com/testuser.png" |}.

Definition sample_repos : list GitHubRepo :=
  [ {| repo_name := "my-awesome-project";
       description := Some "Yet another TODO app that will change the world";
       language := Some "JavaScript";
       stargazers_count := 0; forks_count := 0;
       repo_created_at := "2024-01-01T00:00:00Z";
       updated_at := "2024-01-02T00:00:00Z" |};
    {| repo_name := "hello-world-v2";
       description := None;
       language := Some "Python";
       stargazers_count := 1; forks_count := 0;
       repo_created_at := "2024-01-01T00:00:00Z";
       updated_at := "2024-01-01T00:00:00Z" |};
    {| repo_name := "definitely-not-copied";
       description := Some "Original work do not steal";
       language := Some "TypeScript";
       stargazers_count := 0; forks_count := 0;
       repo_created_at := "2024-01-01T00:00:00Z";
       updated_at := "2023-06-01T00:00:00Z" |} ].

Definition sample_commits : list GitHubCommit :=
  [ {| message := "fix stuff"; date := "2024-01-01T03:00:00Z" |};
    {| message := "why doesn't this work???"; date := "2024-01-01T03:30:00Z" |};
    {| message := "finally!!! 🎉🎉🎉"; date := "2024-01-01T04:00:00Z" |};
    {| message := "oops forgot to commit"; date := "2024-01-02T02:00:00Z" |};
    {| message := "WTF is this code"; date := "2024-01-02T02:30:00Z" |} ].

Definition sample_commitPatterns : dict :=
  [ ("timeOfDay",
     VDict [ ("morning", VInt 0); ("afternoon", VInt 1);
             ("evening", VInt 0); ("night", VInt 4) ]);
    ("dayOfWeek",
     VDict [ ("Monday", VInt 3); ("Tuesday", VInt 2); ("Wednesday", VInt 0);
             ("Thursday", VInt 0); ("Friday", VInt 0); ("Saturday", VInt 0);
             ("Sunday", VInt 0) ]);
    ("commitFrequency",
     VDict [ ("daily", VInt 5); ("weekly", VInt 5); ("monthly", VInt 5) ]) ].

Definition sample_emojiUsage : dict :=
  [ ("count", VInt 3);
    ("topEmojis", VList [ VDict [ ("emoji", VStr "🎉"); ("count", VInt 3) ] ]) ].

Definition sample_commitLanguage : dict :=
  [ ("averageLength", VInt 18);
    ("shortMessages", VInt 1);
    ("longMessages", VInt 0);
    ("questionableMessages",
     VList [ VStr "fix stuff"; VStr "why doesn't this work???";
             VStr "oops forgot to commit"; VStr "WTF is this code" ]) ].

Definition sample_repoAnalysis : dict :=
  [ ("namingPatterns", VList [ VStr "kebab-case"; VStr "hasApp" ]);
    ("languages",
     VDict [ ("JavaScript", VInt 1); ("Python", VInt 1); ("TypeScript", VInt 1) ]);
    ("abandonedRepos", VInt 1);
    ("oneCommitWonders", VInt 0) ].

Definition sample_userStats : dict :=
  [ ("accountAge", VInt 1500);
    ("publicContributions", VInt 5);
    ("followRatio", VFloat 0.21);
    ("repoToStarRatio", VFloat 0.33) ].

Definition sample_analysis : UserAnalysis :=
  {| commitPatterns := sample_commitPatterns;
     emojiUsage := sample_emojiUsage;
     commitLanguage := sample_commitLanguage;
     repoAnalysis := sample_repoAnalysis;
     userStats := sample_userStats |}.

Definition request_of (a : UserAnalysis) : RoastRequest :=
  {| user := sample_user;
     repos := sample_repos;
     commits := sample_commits;
     analysis := a |}.

Definition sample_request : RoastRequest := request_of sample_analysis.

(** The sample with one bundle replaced. *)
Definition with_userStats (d : dict) : RoastRequest :=
  request_of
    {| commitPatterns := sample_commitPatterns;
       emojiUsage := sample_emojiUsage;
       commitLanguage := sample_commitLanguage;
       repoAnalysis := sample_repoAnalysis;
       userStats := d |}.

Definition with_commitPatterns (d : dict) : RoastRequest :=
  request_of
    {| commitPatterns := d;
       emojiUsage := sample_emojiUsage;
       commitLanguage := sample_commitLanguage;
       repoAnalysis := sample_repoAnalysis;
       userStats := sample_userStats |}.

Definition with_emojiUsage (d : dict) : RoastRequest :=
  request_of
    {| commitPatterns := sample_commitPatterns;
       emojiUsage := d;
       commitLanguage := sample_commitLanguage;
       repoAnalysis := sample_repoAnalysis;
       userStats := sample_userStats |}.

Definition with_repoAnalysis (d : dict) : RoastRequest :=
  request_of
    {| commitPatterns := sample_commitPatterns;
       emojiUsage := sample_emojiUsage;
       commitLanguage := sample_commitLanguage;
       repoAnalysis := d;
       userStats := sample_userStats |}.

(** A request whose five bundles are all empty. *)
Definition bare_request : RoastRequest :=
  request_of
    {| commitPatterns := []; emojiUsage := []; commitLanguage := [];
       repoAnalysis := []; userStats := [] |}.

(** [followRatio] is JSON [null]: what a client sends for a ratio it could
    not compute. *)
Definition null_follow_ratio_request : RoastRequest :=
  with_userStats
    [ ("accountAge", VInt 1500); ("followRatio", VNone);
      ("repoToStarRatio", VFloat 0.33) ].

(** [averageLength] is JSON [null]: what a client sends when it has no
    commit message to average over. *)
Definition null_average_length_request : RoastRequest :=
  request_of
    {| commitPatterns := sample_commitPatterns;
       emojiUsage := sample_emojiUsage;
       commitLanguage :=
         [ ("averageLength", VNone); ("questionableMessages", VList []) ];
       repoAnalysis := sample_repoAnalysis;
       userStats := sample_userStats |}.

(** [accountAge] arrives as a JSON string. *)
Definition string_account_age_request : RoastRequest :=
  with_userStats
    [ ("accountAge", VStr "1500"); ("followRatio", VFloat 0.21);
      ("repoToStarRatio", VFloat 0.33) ].

(** [repoToStarRatio] arrives as a JSON string. *)
Definition string_star_ratio_request : RoastRequest :=
  with_userStats
    [ ("accountAge", VInt 1500); ("followRatio", VFloat 0.21);
      ("repoToStarRatio", VStr "0.33") ].

(** No [followRatio] at all. *)
Definition no_follow_ratio_request : RoastRequest :=
  with_userStats [ ("accountAge", VInt 1500) ].

(** Every [timeOfDay] count is zero. *)
Definition idle_request : RoastRequest :=
  with_commitPatterns
    [ ("timeOfDay",
       VDict [ ("morning", VInt 0); ("afternoon", VInt 0);
               ("evening", VInt 0); ("night", VInt 0) ]) ].

(** Languages listed with the rarely used ones first. *)
Definition rare_first_languages : dict :=
  [ ("HTML", VInt 1); ("CSS", VInt 2); ("Python", VInt 50); ("Rust", VInt 100) ].

Definition rare_first_request : RoastRequest :=
  with_repoAnalysis
    [ ("namingPatterns", VList [ VStr "kebab-case"; VStr "hasApp" ]);
      ("languages", VDict rare_first_languages);
      ("abandonedRepos", VInt 1);
      ("oneCommitWonders", VInt 0) ].

(** Twelve emojis: over the fallback generator's limit of 10, under the
    scorer's limit of 15. *)
Definition twelve_emoji_request : RoastRequest :=
  with_emojiUsage [ ("count", VInt 12) ].

(** [abandonedRepos] is [10 ^ 4300], the smallest count of 4301 digits. *)
Definition huge_abandoned_request : RoastRequest :=
  with_repoAnalysis
    [ ("namingPatterns", VList [ VStr "kebab-case"; VStr "hasApp" ]);
      ("languages",
       VDict [ ("JavaScript", VInt 1); ("Python", VInt 1); ("TypeScript", VInt 1) ]);
      ("abandonedRepos", VInt int_str_limit);
      ("oneCommitWonders", VInt 0) ].


(** A stand-in for the interpreter in the closed examples below, none of
    which prints a float or a container or divides a float. *)
Definition stand_in : interpreter :=
  {| float_repr := fun _ => "<float>";
     container_repr := fun _ => Ok "<repr>";
     float_floordiv := fun _ _ => nan |}.

(** A client that fails, and one that answers with two roasts. *)
Definition failing_client (prompt : string) : result (option GeneratedRoasts) :=
  Raise (ServiceError "unreachable").

Definition answering_client (prompt : string) : result (option GeneratedRoasts) :=
  Ok (Some {| ai_roasts :=
                [ {| text := "Nice TODO app."; category := "repo_patterns";
                     severity := "mild" |};
                  {| text := "3 AM again?"; category := "coding_habits";
                     severity := "medium" |} ];
              ai_overall_tone := "chaos_engineer" |}).

(** ** The spec's reading of "most used languages" *)

(** The three languages with the highest counts, highest first: what "most
    frequent" would mean, to compare with what [create_roast_prompt] shows. *)
Fixpoint insert_by_count (entry : string * Z) (sorted : list (string * Z))
  : list (string * Z) :=
  match sorted with
  | [] => [entry]
  | e :: r =>
      if snd e <? snd entry then entry :: e :: r
      else e :: insert_by_count entry r
  end.

Definition int_count (v : value) : Z :=
  match as_number v with
  | Some (NInt z) => z
  | _ => 0
  end.

Definition most_frequent_languages (d : dict) : list string :=
  firstn 3
    (map fst
       (fold_right insert_by_count []
          (map (fun kv => (fst kv, int_count (snd kv))) d))).

(** ** Reading a run of the fallback generator *)

(** Every [timeOfDay] value equals zero ([False], [0], [0.0] or [-0.0]). *)
Definition all_counts_zero (commit_times : value) : bool :=
  match commit_times with
  | VDict d => forallb (fun v => py_eq v (VInt 0)) (values d)
  | _ => false
  end.

(** The roasts of the five rule blocks, from what each block's tests said. *)
Definition rule_roasts_of (age : list string)
  (night_owl overuse drought abandoned lonely : bool) (count_text : string)
  : list string :=
  (age ++
   (if night_owl then [night_owl_roast] else []) ++
   (if overuse then [emoji_overuse_roast]
    else if drought then [emoji_drought_roast] else []) ++
   (if abandoned then [abandoned_repos_roast count_text] else []) ++
   (if lonely then [follow_ratio_roast] else []))%list.

(** ** Reading a run of the scorer *)

(** The factor tags, from what each rule's test said. *)
Definition factors_of
  (questionable overuse drought abandonment awkward night_owl lazy : bool)
  : list string :=
  ((if questionable then ["questionable_commits"] else []) ++
   (if overuse then ["emoji_overuse"]
    else if drought then ["emoji_drought"] else []) ++
   (if abandonment then ["repo_abandonment"] else []) ++
   (if awkward then ["social_awkwardness"] else []) ++
   (if night_owl then ["night_owl_coding"] else []) ++
   (if lazy then ["lazy_commit_messages"] else []))%list.

(** What a rule adds to the score: its weight when its test fired. *)
Definition weight_if (fired : bool) (weight : Z) : Z :=
  if fired then weight else 0.

(** The level and message of a score (the if-chain that closes
    [analyze_roast_potential]). *)
Definition tier (score : Z) : string * string :=
  if 60 <=? score then ("highly_roastable", highly_message)
  else if 30 <=? score then ("moderately_roastable", moderately_message)
  else ("minimally_roastable", minimally_message).

(** What the scorer answers on the sample payload. *)
Definition sample_potential : RoastPotential :=
  {| roast_score := 55;
     roastability_level := "moderately_roastable";
     potential_message := moderately_message;
     roast_factors :=
       [ "questionable_commits"; "social_awkwardness"; "night_owl_coding" ];
     suggestions := fixed_suggestions |}.

(** The errors the interpreter itself raises, as opposed to the handler's
    [HTTPException] and the client's errors. *)
Definition is_builtin_error (e : exn) : bool :=
  match e with
  | TypeError | AttributeError | ValueError | OverflowError => true
  | HTTPException _ _ | ServiceError _ => false
  end.

(** * Properties *)

(** ** Results and binds *)

Lemma bind_Ok_inv {A B : Type} (r : result A) (k : A -> result B) (b : B) :
  bind r k = Ok b -> exists a, r = Ok a /\ k a = Ok b.
Proof.
  destruct r as [a | e]; simpl; intro H.
  - exists a. split; [reflexivity | exact H].
  - discriminate H.
Qed.

Lemma bind_Ok {A B : Type} (r : result A) (k : A -> result B) (a : A) :
  r = Ok a -> bind r k = k a.
Proof. intros ->. reflexivity. Qed.

Lemma Ok_inj {A : Type} (a b : A) : Ok a = Ok b -> a = b.
Proof. intro H. inversion H. reflexivity. Qed.

(** Take the next bind of a successful run apart. *)
Ltac step H :=
  let a := fresh "a" in
  let Ha := fresh "E" in
  apply bind_Ok_inv in H; destruct H as (a & Ha & H).

(** ** The digit limit of [str] *)

Lemma int_str_limit_value : int_str_limit = 10 ^ 4300.
Proof. vm_compute. reflexivity. Qed.

Lemma int_str_limit_positive : 0 < int_str_limit.
Proof. reflexivity. Qed.

Lemma fits_str_below (z : Z) : fits_str z = true <-> Z.abs z < 10 ^ 4300.
Proof. unfold fits_str. rewrite <- int_str_limit_value. apply Z.ltb_lt. Qed.

Lemma int_str_fits (z : Z) : fits_str z = true -> int_str z = Ok (decimal z).
Proof. intro H. unfold int_str. rewrite H. reflexivity. Qed.

Lemma int_str_Ok (z : Z) (shown : string) :
  int_str z = Ok shown -> fits_str z = true /\ shown = decimal z.
Proof.
  unfold int_str. destruct (fits_str z); intro H; inversion H. auto.
Qed.

Lemma int_str_beyond (z : Z) :
  10 ^ 4300 <= Z.abs z -> int_str z = Raise ValueError.
Proof.
  intro H. unfold int_str.
  destruct (fits_str z) eqn:Hfits; [ | reflexivity].
  apply fits_str_below in Hfits. exfalso. apply (Z.lt_irrefl (Z.abs z)).
  exact (Z.lt_le_trans _ _ _ Hfits H).
Qed.

(** ** Numbers compare without raising *)

Lemma is_number_as_number (v : value) :
  is_number v = true -> exists n, as_number v = Some n.
Proof.
  unfold is_number. destruct (as_number v) as [n | ]; [eauto | discriminate].
Qed.

Lemma py_order_numbers (a b : value) (x y : number) :
  as_number a = Some x -> as_number b = Some y ->
  py_order a b = Ok (number_compare x y).
Proof.
  intros Ha Hb.
  destruct a; try discriminate Ha; destruct b; try discriminate Hb;
    simpl in *; inversion Ha; inversion Hb; reflexivity.
Qed.

Lemma py_lt_total (a b : value) :
  is_number a = true -> is_number b = true -> exists r, py_lt a b = Ok r.
Proof.
  intros Ha Hb.
  destruct (is_number_as_number a Ha) as [x Hx].
  destruct (is_number_as_number b Hb) as [y Hy].
  unfold py_lt. rewrite (py_order_numbers a b x y Hx Hy). simpl. eauto.
Qed.

Lemma py_gt_total (a b : value) :
  is_number a = true -> is_number b = true -> exists r, py_gt a b = Ok r.
Proof.
  intros Ha Hb.
  destruct (is_number_as_number a Ha) as [x Hx].
  destruct (is_number_as_number b Hb) as [y Hy].
  unfold py_gt. rewrite (py_order_numbers a b x y Hx Hy). simpl. eauto.
Qed.

(** ** Values equal to zero *)

(** [v == 0] holds for [False], the [int] 0 and the two float zeros only. *)
Lemma py_eq_zero_cases (v : value) :
  py_eq v (VInt 0) = true ->
  v = VBool false \/ v = VInt 0 \/ v = VFloat 0 \/ v = VFloat (-0).
Proof.
  destruct v as [ | b | z | f | s | l | d]; simpl; try discriminate.
  - destruct b; simpl; [discriminate | auto].
  - destruct (z ?= 0) eqn:Hz; try discriminate.
    apply Z.compare_eq in Hz. subst z. auto.
  - unfold Z_float_compare. intro H.
    destruct (Prim2SF f) as [neg | neg | | neg m e] eqn:Hf.
    + rewrite <- (SF2Prim_Prim2SF f), Hf.
      destruct neg; [right; right; right | right; right; left]; reflexivity.
    + destruct neg; discriminate H.
    + discriminate H.
    + exfalso.
      set (v := if neg then Z.neg m else Z.pos m) in H.
      assert (Hv : v <> 0) by (subst v; destruct neg; discriminate).
      destruct (0 <=? e) eqn:He; cbn [option_map is_Eq] in H.
      * assert (Hpow : 0 < 2 ^ e) by (apply Z.pow_pos_nonneg; lia).
        destruct (0 ?= v * 2 ^ e) eqn:Hc; try discriminate H.
        apply Z.compare_eq in Hc. nia.
      * destruct (0 * 2 ^ (- e) ?= v) eqn:Hc; try discriminate H.
        apply Z.compare_eq in Hc. lia.
Qed.

Lemma is_Gt_le (x y : Z) : x <= y -> is_Gt (Some (x ?= y)) = false.
Proof.
  intro H. destruct (Z.compare_spec x y); try reflexivity. lia.
Qed.

Lemma is_Gt_opp_ge (x y : Z) :
  y <= x -> is_Gt (option_map CompOpp (Some (x ?= y))) = false.
Proof.
  intro H. destruct (Z.compare_spec x y); try reflexivity. lia.
Qed.

(** Zero is above no non-negative [int]. *)
Lemma zero_not_above (v : value) (k : Z) :
  0 <= k -> py_eq v (VInt 0) = true -> py_gt v (VInt k) = Ok false.
Proof.
  intros Hk Hv.
  destruct (py_eq_zero_cases v Hv) as [-> | [-> | [-> | ->]]];
    unfold py_gt, py_order;
    cbn [as_number bind number_compare];
    unfold Z_float_compare;
    try change (Prim2SF 0) with (S754_zero false);
    try change (Prim2SF (-0)) with (S754_zero true);
    cbv iota;
    first [ rewrite (is_Gt_le 0 k Hk) | rewrite (is_Gt_opp_ge k 0 Hk) ];
    reflexivity.
Qed.

(** ** The night-owl test on well-typed counts *)

Lemma int_magnitude_nonneg (v : value) : 0 <= int_magnitude v.
Proof.
  unfold int_magnitude. destruct (as_number v) as [[z | f] | ]; lia.
Qed.

Lemma magnitudes_nonneg (vs : list value) :
  0 <= fold_right Z.add 0 (map int_magnitude vs).
Proof.
  induction vs as [ | v r IH]; simpl; [lia | ].
  pose proof (int_magnitude_nonneg v). lia.
Qed.

Lemma float_of_Z_total (z : Z) :
  Z.abs z < float_limit -> exists f, float_of_Z z = Ok f.
Proof.
  intro H. unfold float_of_Z.
  apply Z.ltb_lt in H. rewrite H. eauto.
Qed.

(** One addition of [sum] keeps the running total a number, and an [int]
    total within the bound left for it. *)
Lemma py_add_convertible (acc v : value) (room : Z) :
  is_number acc = true -> is_number v = true ->
  int_magnitude acc + int_magnitude v + room < float_limit -> 0 <= room ->
  exists t, py_add acc v = Ok t /\ is_number t = true /\
            int_magnitude t + room < float_limit.
Proof.
  intros Hacc Hv Hroom Hpos.
  destruct (is_number_as_number acc Hacc) as [x Hx].
  destruct (is_number_as_number v Hv) as [y Hy].
  unfold py_add, int_magnitude in *. rewrite Hx, Hy in *.
  destruct x as [a | f], y as [b | g]; simpl.
  - exists (VInt (a + b)). repeat split. simpl. lia.
  - destruct (float_of_Z_total a) as [fa Hfa]; [lia | ].
    rewrite Hfa. simpl. exists (VFloat (fa + g)). repeat split. simpl. lia.
  - destruct (float_of_Z_total b) as [fb Hfb]; [lia | ].
    rewrite Hfb. simpl. exists (VFloat (f + fb)). repeat split. simpl. lia.
  - exists (VFloat (f + g)). repeat split. simpl. lia.
Qed.

Lemma sum_from_convertible (vs : list value) :
  forall acc,
    is_number acc = true -> forallb is_number vs = true ->
    int_magnitude acc + fold_right Z.add 0 (map int_magnitude vs) < float_limit ->
    exists t, sum_from acc vs = Ok t /\ is_float_convertible t = true.
Proof.
  induction vs as [ | v r IH]; intros acc Hacc Hvs Hroom; simpl in *.
  - exists acc. split; [reflexivity | ].
    unfold is_float_convertible. rewrite Hacc. simpl. apply Z.ltb_lt. lia.
  - apply andb_true_iff in Hvs. destruct Hvs as [Hv Hr].
    destruct (py_add_convertible acc v
                (fold_right Z.add 0 (map int_magnitude r)) Hacc Hv)
      as (t & Ht & Hnum & Hbound); [lia | apply magnitudes_nonneg | ].
    rewrite Ht. simpl. apply IH; assumption.
Qed.

Lemma py_mul_float_total (t : value) (c : float) :
  is_float_convertible t = true -> exists f, py_mul_float t c = Ok (VFloat f).
Proof.
  unfold is_float_convertible, py_mul_float, int_magnitude, is_number.
  destruct (as_number t) as [[z | f] | ]; simpl; intro H; try discriminate H.
  - apply Z.ltb_lt in H. destruct (float_of_Z_total z H) as [f Hf].
    rewrite Hf. simpl. eauto.
  - eauto.
Qed.

Lemma lookup_In (k : string) (d : dict) (v : value) :
  lookup k d = Some v -> In v (values d).
Proof.
  induction d as [ | [k' w] r IH]; simpl; [discriminate | ].
  destruct (String.eqb k k').
  - intro H. inversion H. auto.
  - auto.
Qed.

Lemma dict_get_forallb (p : value -> bool) (d : dict) (k : string) (default : value) :
  forallb p (values d) = true -> p default = true ->
  p (dict_get d k default) = true.
Proof.
  intros Hall Hdef. unfold dict_get.
  destruct (lookup k d) as [v | ] eqn:Hk; [ | exact Hdef].
  rewrite forallb_forall in Hall. apply Hall. exact (lookup_In k d v Hk).
Qed.

Lemma night_share_total (commit_times : value) (fraction : float) :
  is_count_dict commit_times = true ->
  exists b, night_share_exceeds commit_times fraction = Ok b.
Proof.
  destruct commit_times as [ | | | | | | d]; try discriminate.
  simpl. intro H. apply andb_true_iff in H. destruct H as [Hnum Hsum].
  apply Z.ltb_lt in Hsum.
  unfold night_share_exceeds. simpl.
  destruct (sum_from_convertible (values d) (VInt 0) eq_refl Hnum)
    as (t & Ht & Hconv); [simpl; lia | ].
  unfold py_sum. rewrite Ht. simpl.
  destruct (py_mul_float_total t fraction Hconv) as [f Hf].
  rewrite Hf. simpl.
  apply py_gt_total; [ | reflexivity].
  apply dict_get_forallb; [exact Hnum | reflexivity].
Qed.

(** ** The night-owl test on counts that are all zero *)

Lemma py_add_zero (acc v : value) :
  acc = VInt 0 \/ acc = VFloat 0 -> py_eq v (VInt 0) = true ->
  exists t, py_add acc v = Ok t /\ (t = VInt 0 \/ t = VFloat 0).
Proof.
  intros Hacc Hv.
  destruct (py_eq_zero_cases v Hv) as [-> | [-> | [-> | ->]]];
    destruct Hacc as [-> | ->];
    (eexists; split; [vm_compute; reflexivity | auto]).
Qed.

Lemma sum_from_zero (vs : list value) :
  forall acc,
    acc = VInt 0 \/ acc = VFloat 0 ->
    forallb (fun v => py_eq v (VInt 0)) vs = true ->
    exists t, sum_from acc vs = Ok t /\ (t = VInt 0 \/ t = VFloat 0).
Proof.
  induction vs as [ | v r IH]; intros acc Hacc Hvs; simpl in *.
  - eauto.
  - apply andb_true_iff in Hvs. destruct Hvs as [Hv Hr].
    destruct (py_add_zero acc v Hacc Hv) as (t & Ht & Hzero).
    rewrite Ht. simpl. apply IH; assumption.
Qed.

(** With every count zero, night's count does not exceed the share, for the
    fraction of either rule engine, and nothing is raised. *)
Lemma night_share_zero (commit_times : value) (fraction : float) :
  fraction = 0.4%float \/ fraction = 0.5%float ->
  all_counts_zero commit_times = true ->
  night_share_exceeds commit_times fraction = Ok false.
Proof.
  intros Hfraction.
  destruct commit_times as [ | | | | | | d]; try discriminate.
  simpl. intro Hzero.
  unfold night_share_exceeds. simpl.
  destruct (sum_from_zero (values d) (VInt 0) (or_introl eq_refl) Hzero)
    as (t & Ht & Htotal).
  unfold py_sum. rewrite Ht. simpl.
  assert (Hnight : py_eq (dict_get d "night" (VInt 0)) (VInt 0) = true).
  { apply (dict_get_forallb (fun v => py_eq v (VInt 0))); [exact Hzero | reflexivity]. }
  destruct (py_eq_zero_cases _ Hnight) as [-> | [-> | [-> | ->]]];
    destruct Htotal as [-> | ->];
    destruct Hfraction as [-> | ->];
    vm_compute; reflexivity.
Qed.

(** ** The roast texts are pairwise distinct *)

Ltac distinct_texts :=
  let H := fresh in
  intro H;
  unfold new_account_roast, veteran_roast, abandoned_repos_roast, night_owl_roast,
    emoji_overuse_roast, emoji_drought_roast, follow_ratio_roast in H;
  cbn [append] in H; discriminate H.

Lemma night_owl_not_age (s : string) :
  night_owl_roast <> new_account_roast s /\ night_owl_roast <> veteran_roast s /\
  night_owl_roast <> abandoned_repos_roast s.
Proof. repeat split; distinct_texts. Qed.

Lemma overuse_not_parametric (s : string) :
  emoji_overuse_roast <> new_account_roast s /\
  emoji_overuse_roast <> veteran_roast s /\
  emoji_overuse_roast <> abandoned_repos_roast s.
Proof. repeat split; distinct_texts. Qed.

Lemma drought_not_parametric (s : string) :
  emoji_drought_roast <> new_account_roast s /\
  emoji_drought_roast <> veteran_roast s /\
  emoji_drought_roast <> abandoned_repos_roast s.
Proof. repeat split; distinct_texts. Qed.

Lemma fixed_texts_distinct :
  night_owl_roast <> emoji_overuse_roast /\
  night_owl_roast <> emoji_drought_roast /\
  night_owl_roast <> follow_ratio_roast /\
  emoji_overuse_roast <> emoji_drought_roast /\
  emoji_overuse_roast <> follow_ratio_roast /\
  emoji_drought_roast <> follow_ratio_roast /\
  ~ In night_owl_roast filler_roasts /\
  ~ In emoji_overuse_roast filler_roasts /\
  ~ In emoji_drought_roast filler_roasts.
Proof.
  repeat split; try distinct_texts;
    (intros [H | [H | [H | []]]]; revert H; vm_compute; discriminate).
Qed.

(** ** The post-pass and the slice *)

Lemma padded_no_cut (rules : list string) :
  (List.length rules <= 5)%nat ->
  padded rules =
    (rules ++ (if (List.length rules <? 3)%nat then filler_roasts else []))%list.
Proof.
  intro H. unfold padded.
  destruct (List.length rules <? 3)%nat eqn:Hshort.
  - apply Nat.ltb_lt in Hshort.
    apply firstn_all2. rewrite length_app. simpl. lia.
  - rewrite app_nil_r. apply firstn_all2. lia.
Qed.

Lemma padded_length (rules : list string) :
  (List.length rules <= 5)%nat ->
  (3 <= List.length (padded rules) <= 6)%nat.
Proof.
  intro H. rewrite (padded_no_cut rules H), length_app.
  destruct (List.length rules <? 3)%nat eqn:Hshort; simpl.
  - apply Nat.ltb_lt in Hshort. lia.
  - apply Nat.ltb_ge in Hshort. lia.
Qed.

Lemma In_padded (rules : list string) (x : string) :
  (List.length rules <= 5)%nat ->
  In x (padded rules) <->
  In x rules \/ ((List.length rules < 3)%nat /\ In x filler_roasts).
Proof.
  intro H. rewrite (padded_no_cut rules H), in_app_iff.
  destruct (List.length rules <? 3)%nat eqn:Hshort.
  - apply Nat.ltb_lt in Hshort. tauto.
  - apply Nat.ltb_ge in Hshort. simpl. split; [tauto | ].
    intros [Hin | [Hlt _]]; [auto | lia].
Qed.

Lemma rule_roasts_length (age : list string)
  (night_owl overuse drought abandoned lonely : bool) (count_text : string) :
  (List.length age <= 1)%nat ->
  (List.length
     (rule_roasts_of age night_owl overuse drought abandoned lonely count_text)
   <= 5)%nat.
Proof.
  intro H. unfold rule_roasts_of. rewrite !length_app.
  destruct night_owl, overuse, drought, abandoned, lonely; simpl; lia.
Qed.

Lemma In_rule_roasts (x : string) (age : list string)
  (night_owl overuse drought abandoned lonely : bool) (count_text : string) :
  In x (rule_roasts_of age night_owl overuse drought abandoned lonely count_text)
  <->
  In x age \/
  (night_owl = true /\ x = night_owl_roast) \/
  (overuse = true /\ x = emoji_overuse_roast) \/
  (overuse = false /\ drought = true /\ x = emoji_drought_roast) \/
  (abandoned = true /\ x = abandoned_repos_roast count_text) \/
  (lonely = true /\ x = follow_ratio_roast).
Proof.
  unfold rule_roasts_of. rewrite !in_app_iff.
  destruct night_owl, overuse, drought, abandoned, lonely; simpl;
    intuition (auto; try discriminate).
Qed.

Section Properties.

Variable py : interpreter.

(** ** A run of [generate_fallback_roasts], rule by rule *)

(** What the account-age block appends, with the tests that decide it. *)
Definition age_outcome (request : RoastRequest) (age : list string) : Prop :=
  let account_age :=
    dict_get request.(analysis).(userStats) "accountAge" (VInt 0) in
  (py_lt account_age (VInt 365) = Ok true /\
   age = [new_account_roast request.(user).(login)]) \/
  (py_lt account_age (VInt 365) = Ok false /\
   py_gt account_age (VInt 3650) = Ok true /\
   exists years years_shown,
     py_floordiv py account_age 365 = Ok years /\
     py_str py years = Ok years_shown /\
     age = [veteran_roast years_shown]) \/
  (py_lt account_age (VInt 365) = Ok false /\
   py_gt account_age (VInt 3650) = Ok false /\
   age = []).

(** The account-age block of the generator, as a computation of its own. *)
Definition age_block (request : RoastRequest) : result (list string) :=
  let account_age :=
    dict_get request.(analysis).(userStats) "accountAge" (VInt 0) in
  is_new <- py_lt account_age (VInt 365) ;;
  if is_new then Ok [new_account_roast request.(user).(login)]
  else
    is_old <- py_gt account_age (VInt 3650) ;;
    if is_old then
      years <- py_floordiv py account_age 365 ;;
      years_shown <- py_str py years ;;
      Ok [veteran_roast years_shown]
    else Ok [].

Lemma age_block_run (request : RoastRequest) (age : list string) :
  age_block request = Ok age <-> age_outcome request age.
Proof.
  unfold age_block, age_outcome. cbv zeta. split.
  - intro H. step H. destruct a.
    + apply (f_equal (fun r => match r with Ok x => x | Raise _ => [] end)) in H.
      cbv beta iota in H. subst age. left. auto.
    + step H. destruct a.
      * step H. step H.
        apply (f_equal (fun r => match r with Ok x => x | Raise _ => [] end)) in H.
        cbv beta iota in H. subst age. right; left. eauto 8.
      * apply (f_equal (fun r => match r with Ok x => x | Raise _ => [] end)) in H.
        cbv beta iota in H. subst age. right; right. auto.
  - intros [(-> & ->) | [(-> & -> & years & years_shown & -> & Hy & ->)
                        | (-> & -> & ->)]];
      cbn [bind]; [ | rewrite Hy | ]; reflexivity.
Qed.

Lemma fallback_run (request : RoastRequest) (l : list string) :
  generate_fallback_roasts py request = Ok l <->
  exists age night_owl overuse abandoned lonely count_text,
    let analysis := request.(analysis) in
    let emoji_count := dict_get analysis.(emojiUsage) "count" (VInt 0) in
    let abandoned_repos :=
      dict_get analysis.(repoAnalysis) "abandonedRepos" (VInt 0) in
    age_outcome request age /\
    night_share_exceeds
      (dict_get analysis.(commitPatterns) "timeOfDay" (VDict [])) 0.4
      = Ok night_owl /\
    py_gt emoji_count (VInt 10) = Ok overuse /\
    py_gt abandoned_repos (VInt 0) = Ok abandoned /\
    (abandoned = true ->
     py_str py abandoned_repos = Ok count_text) /\
    py_lt (dict_get analysis.(userStats) "followRatio" (VInt 0)) (VFloat 0.5)
      = Ok lonely /\
    l = padded
          (rule_roasts_of age night_owl overuse (py_eq emoji_count (VInt 0))
             abandoned lonely count_text).
Proof.
  unfold generate_fallback_roasts, padded, rule_roasts_of.
  cbv zeta. split.
  - intro H.
    step H. step H. step H. step H. step H. step H. step H.
    apply (f_equal (fun r => match r with Ok x => x | Raise _ => [] end)) in H.
    cbv beta iota in H. subst l.
    assert (Hage : age_outcome request a0).
    { apply age_block_run. unfold age_block. cbv zeta. rewrite E. exact E0. }
    destruct a3.
    + apply bind_Ok_inv in E4. destruct E4 as (shown & Hshown & E4).
      apply (f_equal (fun r => match r with Ok x => x | Raise _ => [] end)) in E4.
      cbv beta iota in E4. subst a4.
      exists a0, a1, a2, true, a5, shown. cbv zeta.
      repeat (split; [first [assumption | intros _; assumption] | ]).
      destruct a1, a2, a5,
        (py_eq (dict_get (emojiUsage (analysis request)) "count" (VInt 0)) (VInt 0));
        cbn [app]; rewrite ?app_nil_r, <- ?app_assoc; reflexivity.
    + apply (f_equal (fun r => match r with Ok x => x | Raise _ => [] end)) in E4.
      cbv beta iota in E4. subst a4.
      exists a0, a1, a2, false, a5, EmptyString. cbv zeta.
      repeat (split; [first [assumption | discriminate] | ]).
      destruct a1, a2, a5,
        (py_eq (dict_get (emojiUsage (analysis request)) "count" (VInt 0)) (VInt 0));
        cbn [app]; rewrite ?app_nil_r, <- ?app_assoc; reflexivity.
  - intros (age & night_owl & overuse & abandoned & lonely & count_text &
            Hage & Hn & Ho & Ha & Hc & Hf & ->).
    unfold age_outcome in Hage. cbv zeta in Hage.
    assert (Hshown : abandoned = false \/
              py_str py
                (dict_get (repoAnalysis (analysis request)) "abandonedRepos" (VInt 0))
              = Ok count_text).
    { destruct abandoned; [right; apply Hc; reflexivity | left; reflexivity]. }
    clear Hc.
    destruct Hage as [(-> & ->) | [(-> & -> & years & years_shown & -> & Hy & ->)
                                  | (-> & -> & ->)]];
      cbn [bind]; [ | rewrite Hy; cbn [bind] | ];
      rewrite Hn, Ho, Ha; cbn [bind];
      (destruct Hshown as [-> | Hs]; [ | destruct abandoned; [rewrite Hs | ]]);
      cbn [bind]; rewrite Hf; cbn [bind];
      destruct night_owl, overuse, lonely,
        (py_eq (dict_get (emojiUsage (analysis request)) "count" (VInt 0)) (VInt 0));
      cbn [app]; rewrite ?app_nil_r, <- ?app_assoc; reflexivity.
Qed.

Lemma age_outcome_length (request : RoastRequest) (age : list string) :
  age_outcome request age -> (List.length age <= 1)%nat.
Proof.
  intros [(_ & ->) | [(_ & _ & years & shown & _ & _ & ->) | (_ & _ & ->)]];
    simpl; lia.
Qed.

Lemma age_outcome_texts (request : RoastRequest) (age : list string) :
  age_outcome request age ->
  zero_or_one age
    (fun t => t = new_account_roast request.(user).(login) \/
              exists years, t = veteran_roast years).
Proof.
  intros [(_ & ->) | [(_ & _ & years & shown & _ & _ & ->) | (_ & _ & ->)]].
  - right. eexists. split; [left; reflexivity | reflexivity].
  - right. eexists. split; [right; eexists; reflexivity | reflexivity].
  - left. reflexivity.
Qed.

Lemma age_outcome_not_fixed (request : RoastRequest) (age : list string) :
  age_outcome request age ->
  ~ In night_owl_roast age /\ ~ In emoji_overuse_roast age /\
  ~ In emoji_drought_roast age.
Proof.
  intros [(_ & ->) | [(_ & _ & years & shown & _ & _ & ->) | (_ & _ & ->)]].
  - pose proof (night_owl_not_age request.(user).(login)).
    pose proof (overuse_not_parametric request.(user).(login)).
    pose proof (drought_not_parametric request.(user).(login)).
    simpl. intuition congruence.
  - pose proof (night_owl_not_age shown).
    pose proof (overuse_not_parametric shown).
    pose proof (drought_not_parametric shown).
    simpl. intuition congruence.
  - simpl. tauto.
Qed.

Lemma rule_roasts_in_order (request : RoastRequest) (age : list string)
  (night_owl overuse drought abandoned lonely : bool) (count_text : string) :
  age_outcome request age ->
  in_rule_order request.(user).(login)
    (rule_roasts_of age night_owl overuse drought abandoned lonely count_text).
Proof.
  intro Hage. unfold in_rule_order, rule_roasts_of.
  do 5 eexists. split; [reflexivity | ].
  split; [exact (age_outcome_texts request age Hage) | ].
  unfold zero_or_one.
  destruct night_owl, overuse, drought, abandoned, lonely;
    repeat split; eauto 6.
Qed.

(** On a well-typed request every test of the generator returns, and every
    value it prints has a text. *)
Lemma py_str_printable (v : value) :
  is_printable v = true ->
  exists shown, py_str py v = Ok shown.
Proof.
  destruct v as [ | [ | ] | z | f | s | l | d]; cbn [is_printable py_str];
    intro H; try discriminate H; eauto.
  unfold int_str. rewrite H. eauto.
Qed.

Lemma years_total (v : value) :
  is_number v = true -> years_printable v = true ->
  exists years years_shown,
    py_floordiv py v 365 = Ok years /\
    py_str py years = Ok years_shown.
Proof.
  intros H Hfits. unfold years_printable in Hfits.
  destruct (is_number_as_number v H) as [[z | f] Hn];
    unfold py_floordiv; rewrite Hn in *.
  - do 2 eexists. split; [reflexivity | ].
    cbn [py_str]. unfold int_str. rewrite Hfits. reflexivity.
  - change (float_of_Z 365) with (Ok 365%float). cbn [bind].
    do 2 eexists. split; reflexivity.
Qed.

Lemma age_outcome_total (request : RoastRequest) :
  is_number (dict_get request.(analysis).(userStats) "accountAge" (VInt 0)) = true ->
  years_printable (dict_get request.(analysis).(userStats) "accountAge" (VInt 0))
    = true ->
  exists age, age_outcome request age.
Proof.
  intros H Hfits. unfold age_outcome. cbv zeta.
  destruct (py_lt_total _ (VInt 365) H eq_refl) as [[ | ] Hnew].
  - eexists. left. eauto.
  - destruct (py_gt_total _ (VInt 3650) H eq_refl) as [[ | ] Hold].
    + destruct (years_total _ H Hfits) as (years & shown & Hyears & Hshown).
      eexists. right; left. eauto 8.
    + eexists. right; right. eauto.
Qed.

Lemma fallback_typed_run (request : RoastRequest) :
  fallback_typed request = true ->
  exists age night_owl overuse drought abandoned lonely count_text,
    age_outcome request age /\
    generate_fallback_roasts py request =
      Ok (padded (rule_roasts_of age night_owl overuse drought abandoned lonely
                    count_text)).
Proof.
  unfold fallback_typed. cbv zeta. intro H.
  apply andb_true_iff in H. destruct H as [H Hfollow].
  apply andb_true_iff in H. destruct H as [H Hprints].
  apply andb_true_iff in H. destruct H as [H Hrepos].
  apply andb_true_iff in H. destruct H as [H Hcount].
  apply andb_true_iff in H. destruct H as [H Htimes].
  apply andb_true_iff in H. destruct H as [Hage Hyears].
  destruct (age_outcome_total request Hage Hyears) as [age Hout].
  destruct (night_share_total _ 0.4%float Htimes) as [night_owl Hn].
  destruct (py_gt_total _ (VInt 10) Hcount eq_refl) as [overuse Ho].
  destruct (py_gt_total _ (VInt 0) Hrepos eq_refl) as [abandoned Ha].
  destruct (py_str_printable _ Hprints) as [count_text Hc].
  destruct (py_lt_total _ (VFloat 0.5) Hfollow eq_refl) as [lonely Hl].
  exists age, night_owl, overuse. eexists. exists abandoned, lonely, count_text.
  split; [exact Hout | ].
  apply fallback_run.
  exists age, night_owl, overuse, abandoned, lonely, count_text. cbv zeta.
  repeat (split; [first [eassumption | intros _; eassumption] | ]). reflexivity.
Qed.

(** Whatever the generator returns is the rule roasts in block order, then
    the fillers if fewer than three rules fired; the slice removes nothing. *)
Lemma fallback_shape (request : RoastRequest) (l : list string) :
  generate_fallback_roasts py request = Ok l ->
  exists rules,
    in_rule_order request.(user).(login) rules /\
    (List.length rules <= 5)%nat /\
    l = padded rules.
Proof.
  intro H. apply fallback_run in H.
  destruct H as (age & night_owl & overuse & abandoned & lonely & count_text & H).
  cbv zeta in H. destruct H as (Hage & _ & _ & _ & _ & _ & ->).
  eexists. split; [ | split; [ | reflexivity]].
  - apply rule_roasts_in_order. exact Hage.
  - apply rule_roasts_length. exact (age_outcome_length request age Hage).
Qed.

(** C2 (as amended). For every request whose consulted analysis values are
    numbers ([accountAge], the [timeOfDay] counts, [emojiUsage.count],
    [abandonedRepos], [followRatio]; absent keys take their defaults) and
    whose two printed integers, [accountAge // 365] and [abandonedRepos],
    have at most 4300 digits, [generate_fallback_roasts] returns a list of
    between 1 and 6 strings: the roasts of the rule blocks in block order,
    followed by the three fillers when fewer than three rules fired, cut to
    the first 6 (a cut that never removes anything). *)
Theorem fallback_returns_1_to_6_in_order (request : RoastRequest) :
  fallback_typed request = true ->
  exists rules,
    in_rule_order request.(user).(login) rules /\
    generate_fallback_roasts py request = Ok (padded rules) /\
    padded rules =
      (rules ++ (if (List.length rules <? 3)%nat then filler_roasts else []))%list /\
    (1 <= List.length (padded rules) <= 6)%nat.
Proof.
  intro Htyped.
  destruct (fallback_typed_run request Htyped)
    as (age & night_owl & overuse & drought & abandoned & lonely & count_text
        & Hage & Hrun).
  pose proof (rule_roasts_length age night_owl overuse drought abandoned lonely
                count_text (age_outcome_length request age Hage)) as Hlen.
  eexists. split; [ | split; [exact Hrun | split]].
  - apply rule_roasts_in_order. exact Hage.
  - apply padded_no_cut. exact Hlen.
  - pose proof (padded_length _ Hlen). lia.
Qed.

(** C10 (as amended). For every request whose consulted analysis values are
    numbers and whose two printed integers, [accountAge // 365] and
    [abandonedRepos], have at most 4300 digits, [generate_fallback_roasts]
    returns between 3 and 6 strings: when the rule blocks produce fewer than
    three roasts, the result is those roasts followed by all three fillers;
    otherwise it is the rule roasts alone. *)
Theorem fallback_returns_at_least_3 (request : RoastRequest) :
  fallback_typed request = true ->
  exists rules l,
    in_rule_order request.(user).(login) rules /\
    generate_fallback_roasts py request = Ok l /\
    ((List.length rules < 3)%nat -> l = (rules ++ filler_roasts)%list) /\
    ((3 <= List.length rules)%nat -> l = rules) /\
    (3 <= List.length l <= 6)%nat.
Proof.
  intro Htyped.
  destruct (fallback_typed_run request Htyped)
    as (age & night_owl & overuse & drought & abandoned & lonely & count_text
        & Hage & Hrun).
  pose proof (rule_roasts_length age night_owl overuse drought abandoned lonely
                count_text (age_outcome_length request age Hage)) as Hlen.
  do 2 eexists. split; [ | split; [exact Hrun | ]].
  - apply rule_roasts_in_order. exact Hage.
  - rewrite (padded_no_cut _ Hlen).
    split; [ | split].
    + intro Hshort. apply Nat.ltb_lt in Hshort. rewrite Hshort. reflexivity.
    + intro Hfull. apply Nat.ltb_ge in Hfull. rewrite Hfull. apply app_nil_r.
    + rewrite <- (padded_no_cut _ Hlen). apply padded_length. exact Hlen.
Qed.

(** ** A run of [analyze_roast_potential], rule by rule *)

Lemma analyze_run (request : RoastRequest) (r : RoastPotential) :
  analyze_roast_potential request = Ok r <->
  exists overuse abandonment awkward night_owl lazy,
    let analysis := request.(analysis) in
    let emoji_count := dict_get analysis.(emojiUsage) "count" (VInt 0) in
    let factors :=
      factors_of
        (truthy (dict_get analysis.(commitLanguage) "questionableMessages"
                   (VList [])))
        overuse (py_eq emoji_count (VInt 0)) abandonment awkward night_owl lazy in
    py_gt emoji_count (VInt 15) = Ok overuse /\
    py_gt (dict_get analysis.(repoAnalysis) "abandonedRepos" (VInt 0)) (VInt 2)
      = Ok abandonment /\
    py_lt (dict_get analysis.(userStats) "followRatio" (VInt 1)) (VFloat 0.3)
      = Ok awkward /\
    night_share_exceeds
      (dict_get analysis.(commitPatterns) "timeOfDay" (VDict [])) 0.5
      = Ok night_owl /\
    py_lt (dict_get analysis.(commitLanguage) "averageLength" (VInt 0)) (VInt 10)
      = Ok lazy /\
    r = {| roast_score := total_weight factors;
           roastability_level := fst (tier (total_weight factors));
           potential_message := snd (tier (total_weight factors));
           roast_factors := factors;
           suggestions := fixed_suggestions |}.
Proof.
  unfold analyze_roast_potential. cbv zeta. split.
  - intro H.
    step H. step H. step H. step H. step H.
    exists a, a0, a1, a2, a3.
    repeat (split; [assumption | ]).
    destruct (truthy _), a, a0, a1, a2, a3, (py_eq _ _);
      inversion H; reflexivity.
  - intros (overuse & abandonment & awkward & night_owl & lazy &
            Ho & Ha & Hw & Hn & Hl & ->).
    rewrite Ho, Ha, Hw, Hn, Hl. cbn [bind].
    destruct (truthy _), overuse, abandonment, awkward, night_owl, lazy,
      (py_eq _ _); reflexivity.
Qed.

Lemma total_weight_bounds
  (questionable overuse drought abandonment awkward night_owl lazy : bool) :
  0 <= total_weight
         (factors_of questionable overuse drought abandonment awkward night_owl lazy)
    <= 105.
Proof.
  destruct questionable, overuse, drought, abandonment, awkward, night_owl, lazy;
    vm_compute; split; discriminate.
Qed.

Lemma tier_boundaries (score : Z) :
  (60 <= score -> fst (tier score) = "highly_roastable") /\
  (30 <= score < 60 -> fst (tier score) = "moderately_roastable") /\
  (score < 30 -> fst (tier score) = "minimally_roastable").
Proof.
  unfold tier.
  destruct (Z.leb_spec 60 score), (Z.leb_spec 30 score);
    repeat split; intros; try lia; reflexivity.
Qed.

(** Which of the fixed roasts a returned list holds. *)
Lemma fallback_membership (request : RoastRequest) (l : list string) :
  generate_fallback_roasts py request = Ok l ->
  exists night_owl overuse lonely,
    let analysis := request.(analysis) in
    let emoji_count := dict_get analysis.(emojiUsage) "count" (VInt 0) in
    night_share_exceeds
      (dict_get analysis.(commitPatterns) "timeOfDay" (VDict [])) 0.4
      = Ok night_owl /\
    py_gt emoji_count (VInt 10) = Ok overuse /\
    py_lt (dict_get analysis.(userStats) "followRatio" (VInt 0)) (VFloat 0.5)
      = Ok lonely /\
    (In night_owl_roast l <-> night_owl = true) /\
    (In emoji_overuse_roast l <-> overuse = true) /\
    (In emoji_drought_roast l <->
       overuse = false /\ py_eq emoji_count (VInt 0) = true) /\
    (lonely = true -> In follow_ratio_roast l).
Proof.
  intro H. apply fallback_run in H.
  destruct H as (age & night_owl & overuse & abandoned & lonely & count_text & H).
  cbv zeta in H. destruct H as (Hage & Hn & Ho & Ha & _ & Hf & ->).
  exists night_owl, overuse, lonely. cbv zeta.
  split; [exact Hn | split; [exact Ho | split; [exact Hf | ]]].
  pose proof (age_outcome_length request age Hage) as Hlen.
  destruct (age_outcome_not_fixed request age Hage) as (Hn1 & Hn2 & Hn3).
  destruct fixed_texts_distinct
    as (D1 & D2 & D3 & D4 & D5 & D6 & F1 & F2 & F3).
  destruct (night_owl_not_age count_text) as (_ & _ & A1).
  destruct (overuse_not_parametric count_text) as (_ & _ & A2).
  destruct (drought_not_parametric count_text) as (_ & _ & A3).
  rewrite !In_padded by (apply rule_roasts_length; exact Hlen).
  rewrite !In_rule_roasts.
  repeat split; try tauto; intuition congruence.
Qed.

(** ** The factor tags of a run of the scorer *)

Lemma In_factors (x : string)
  (questionable overuse drought abandonment awkward night_owl lazy : bool) :
  In x (factors_of questionable overuse drought abandonment awkward night_owl lazy)
  <->
  (questionable = true /\ x = "questionable_commits") \/
  (overuse = true /\ x = "emoji_overuse") \/
  (overuse = false /\ drought = true /\ x = "emoji_drought") \/
  (abandonment = true /\ x = "repo_abandonment") \/
  (awkward = true /\ x = "social_awkwardness") \/
  (night_owl = true /\ x = "night_owl_coding") \/
  (lazy = true /\ x = "lazy_commit_messages").
Proof.
  unfold factors_of. rewrite !in_app_iff.
  destruct questionable, overuse, drought, abandonment, awkward, night_owl, lazy;
    simpl; intuition (auto; try discriminate).
Qed.

Lemma scorer_membership (request : RoastRequest) (r : RoastPotential) :
  analyze_roast_potential request = Ok r ->
  exists overuse awkward night_owl,
    let analysis := request.(analysis) in
    let emoji_count := dict_get analysis.(emojiUsage) "count" (VInt 0) in
    py_gt emoji_count (VInt 15) = Ok overuse /\
    py_lt (dict_get analysis.(userStats) "followRatio" (VInt 1)) (VFloat 0.3)
      = Ok awkward /\
    night_share_exceeds
      (dict_get analysis.(commitPatterns) "timeOfDay" (VDict [])) 0.5
      = Ok night_owl /\
    (In "emoji_overuse" r.(roast_factors) <-> overuse = true) /\
    (In "emoji_drought" r.(roast_factors) <->
       overuse = false /\ py_eq emoji_count (VInt 0) = true) /\
    (In "social_awkwardness" r.(roast_factors) <-> awkward = true) /\
    (In "night_owl_coding" r.(roast_factors) <-> night_owl = true) /\
    r.(roast_score) = total_weight r.(roast_factors).
Proof.
  intro H. apply analyze_run in H.
  destruct H as (overuse & abandonment & awkward & night_owl & lazy & H).
  cbv zeta in H. destruct H as (Ho & Ha & Hw & Hn & Hl & ->).
  exists overuse, awkward, night_owl. cbv zeta.
  cbn [roast_factors roast_score].
  split; [exact Ho | split; [exact Hw | split; [exact Hn | ]]].
  rewrite !In_factors.
  repeat split; try tauto; intuition (auto; try discriminate).
Qed.


(** On a well-typed request every test of the scorer returns. *)
Lemma scorer_tests_total (request : RoastRequest) :
  scorer_typed request = true ->
  exists overuse abandonment awkward night_owl lazy,
    let analysis := request.(analysis) in
    py_gt (dict_get analysis.(emojiUsage) "count" (VInt 0)) (VInt 15)
      = Ok overuse /\
    py_gt (dict_get analysis.(repoAnalysis) "abandonedRepos" (VInt 0)) (VInt 2)
      = Ok abandonment /\
    py_lt (dict_get analysis.(userStats) "followRatio" (VInt 1)) (VFloat 0.3)
      = Ok awkward /\
    night_share_exceeds
      (dict_get analysis.(commitPatterns) "timeOfDay" (VDict [])) 0.5
      = Ok night_owl /\
    py_lt (dict_get analysis.(commitLanguage) "averageLength" (VInt 0)) (VInt 10)
      = Ok lazy.
Proof.
  unfold scorer_typed. cbv zeta. intro H.
  apply andb_true_iff in H. destruct H as [H Hlength].
  apply andb_true_iff in H. destruct H as [H Htimes].
  apply andb_true_iff in H. destruct H as [H Hfollow].
  apply andb_true_iff in H. destruct H as [Hcount Hrepos].
  destruct (py_gt_total _ (VInt 15) Hcount eq_refl) as [overuse Ho].
  destruct (py_gt_total _ (VInt 2) Hrepos eq_refl) as [abandonment Ha].
  destruct (py_lt_total _ (VFloat 0.3) Hfollow eq_refl) as [awkward Hw].
  destruct (night_share_total _ 0.5%float Htimes) as [night_owl Hn].
  destruct (py_lt_total _ (VInt 10) Hlength eq_refl) as [lazy Hl].
  exists overuse, abandonment, awkward, night_owl, lazy. auto.
Qed.

(** X18. On a request whose scored values are numbers ([emojiUsage.count],
    [abandonedRepos], [followRatio], [averageLength], and a [timeOfDay] of
    numbers within float range; absent keys take their defaults),
    [analyze_roast_potential] returns a result and raises nothing. *)
Lemma analyze_typed_returns (request : RoastRequest) :
  scorer_typed request = true ->
  exists r, analyze_roast_potential request = Ok r.
Proof.
  intro H.
  destruct (scorer_tests_total request H)
    as (overuse & abandonment & awkward & night_owl & lazy & Htests).
  cbv zeta in Htests.
  eexists. apply analyze_run.
  exists overuse, abandonment, awkward, night_owl, lazy. cbv zeta.
  split; [apply Htests | ]. split; [apply Htests | ]. split; [apply Htests | ].
  split; [apply Htests | ]. split; [apply Htests | ]. reflexivity.
Qed.

(** The score of a factor list, rule by rule. *)
Lemma total_weight_by_rule
  (questionable overuse drought abandonment awkward night_owl lazy : bool) :
  total_weight
    (factors_of questionable overuse drought abandonment awkward night_owl lazy) =
  weight_if questionable 20 + weight_if overuse 15 +
  weight_if (negb overuse && drought) 10 + weight_if abandonment 25 +
  weight_if awkward 15 + weight_if night_owl 20 + weight_if lazy 10.
Proof.
  destruct questionable, overuse, drought, abandonment, awkward, night_owl, lazy;
    reflexivity.
Qed.

(** C3 (as amended). For every request whose scored values are numbers
    ([emojiUsage.count], [abandonedRepos], [followRatio], [averageLength],
    and a [timeOfDay] of numbers within float range; absent keys take their
    defaults), [analyze_roast_potential] returns a result whose score is the
    sum of the weights of the rules the request triggers: 20 for a non-empty
    [questionableMessages], 15 for more than 15 emojis or else 10 for none,
    25 for more than 2 abandoned repos, 15 for a [followRatio] below 0.3, 20
    for a night share above one half, 10 for an [averageLength] below 10.
    The score is the total weight of the reported factors, lies between 0
    and 105, and carries the level of its tier: [highly_roastable] from 60
    up, [moderately_roastable] from 30 to 59, [minimally_roastable] below
    30. *)
Theorem roast_score_sums_triggered_weights (request : RoastRequest) :
  scorer_typed request = true ->
  let analysis := request.(analysis) in
  let emoji_count := dict_get analysis.(emojiUsage) "count" (VInt 0) in
  let questionable :=
    truthy (dict_get analysis.(commitLanguage) "questionableMessages" (VList [])) in
  exists overuse abandonment awkward night_owl lazy r,
    py_gt emoji_count (VInt 15) = Ok overuse /\
    py_gt (dict_get analysis.(repoAnalysis) "abandonedRepos" (VInt 0)) (VInt 2)
      = Ok abandonment /\
    py_lt (dict_get analysis.(userStats) "followRatio" (VInt 1)) (VFloat 0.3)
      = Ok awkward /\
    night_share_exceeds
      (dict_get analysis.(commitPatterns) "timeOfDay" (VDict [])) 0.5
      = Ok night_owl /\
    py_lt (dict_get analysis.(commitLanguage) "averageLength" (VInt 0)) (VInt 10)
      = Ok lazy /\
    analyze_roast_potential request = Ok r /\
    r.(roast_score) =
      weight_if questionable 20 + weight_if overuse 15 +
      weight_if (negb overuse && py_eq emoji_count (VInt 0)) 10 +
      weight_if abandonment 25 + weight_if awkward 15 +
      weight_if night_owl 20 + weight_if lazy 10 /\
    r.(roast_score) = total_weight r.(roast_factors) /\
    0 <= r.(roast_score) <= 105 /\
    (60 <= r.(roast_score) -> r.(roastability_level) = "highly_roastable") /\
    (30 <= r.(roast_score) < 60 ->
     r.(roastability_level) = "moderately_roastable") /\
    (r.(roast_score) < 30 -> r.(roastability_level) = "minimally_roastable").
Proof.
  intro H. cbv zeta.
  destruct (scorer_tests_total request H)
    as (overuse & abandonment & awkward & night_owl & lazy & Htests).
  cbv zeta in Htests. destruct Htests as (Ho & Ha & Hw & Hn & Hl).
  exists overuse, abandonment, awkward, night_owl, lazy. eexists.
  split; [exact Ho | ]. split; [exact Ha | ]. split; [exact Hw | ].
  split; [exact Hn | ]. split; [exact Hl | ].
  split.
  { apply analyze_run.
    exists overuse, abandonment, awkward, night_owl, lazy. cbv zeta.
    split; [exact Ho | ]. split; [exact Ha | ]. split; [exact Hw | ].
    split; [exact Hn | ]. split; [exact Hl | ]. reflexivity. }
  cbn [roast_score roast_factors roastability_level].
  split; [apply total_weight_by_rule | ].
  split; [reflexivity | ].
  split; [apply total_weight_bounds | apply tier_boundaries].
Qed.

(** C4. When every [timeOfDay] value is zero (an empty or absent mapping
    included), the night-owl test evaluates to false without raising, for
    the 40% share of [generate_fallback_roasts] and for the 50% share of
    [analyze_roast_potential]; the night-owl roast is in no list the former
    returns and the [night_owl_coding] tag in no factor list the latter
    returns. *)
Theorem night_owl_silent_on_zero_counts (request : RoastRequest) :
  let commit_times :=
    dict_get request.(analysis).(commitPatterns) "timeOfDay" (VDict []) in
  all_counts_zero commit_times = true ->
  night_share_exceeds commit_times 0.4 = Ok false /\
  night_share_exceeds commit_times 0.5 = Ok false /\
  (forall l, generate_fallback_roasts py request = Ok l ->
             ~ In night_owl_roast l) /\
  (forall r, analyze_roast_potential request = Ok r ->
             ~ In "night_owl_coding" r.(roast_factors)).
Proof.
  cbv zeta. intro Hzero.
  pose proof (night_share_zero _ 0.4%float (or_introl eq_refl) Hzero) as H4.
  pose proof (night_share_zero _ 0.5%float (or_intror eq_refl) Hzero) as H5.
  split; [exact H4 | split; [exact H5 | split]].
  - intros l Hl. apply fallback_membership in Hl.
    destruct Hl as (night_owl & overuse & lonely & Hl). cbv zeta in Hl.
    destruct Hl as (Hn & _ & _ & Hin & _).
    rewrite Hin. congruence.
  - intros r Hr. apply scorer_membership in Hr.
    destruct Hr as (overuse & awkward & night_owl & Hr). cbv zeta in Hr.
    destruct Hr as (_ & _ & Hn & _ & _ & _ & Hin & _).
    rewrite Hin. congruence.
Qed.

(** C5. Scenario A: with [accountAge] 1500, [timeOfDay] counts 0, 1, 0 and 4
    for morning, afternoon, evening and night, 3 emojis, 1 abandoned repo and
    a follow ratio of 0.21, [generate_fallback_roasts] returns exactly the
    night-owl roast, the abandoned-repos roast naming the count 1 and the
    follow-ratio roast: neither emoji roast, and no filler. *)
Theorem scenario_A_three_roasts (request : RoastRequest) :
  let analysis := request.(analysis) in
  lookup "accountAge" analysis.(userStats) = Some (VInt 1500) ->
  lookup "timeOfDay" analysis.(commitPatterns) =
    Some (VDict [ ("morning", VInt 0); ("afternoon", VInt 1);
                  ("evening", VInt 0); ("night", VInt 4) ]) ->
  lookup "count" analysis.(emojiUsage) = Some (VInt 3) ->
  lookup "abandonedRepos" analysis.(repoAnalysis) = Some (VInt 1) ->
  lookup "followRatio" analysis.(userStats) = Some (VFloat 0.21) ->
  generate_fallback_roasts py request =
    Ok [ night_owl_roast; abandoned_repos_roast "1"; follow_ratio_roast ].
Proof.
  cbv zeta. intros Hage Htimes Hcount Hrepos Hfollow.
  unfold generate_fallback_roasts, dict_get.
  rewrite Hage, Htimes, Hcount, Hrepos, Hfollow.
  reflexivity.
Qed.

(** C6. The two emoji rules exclude each other in both engines.  In a list
    [generate_fallback_roasts] returns, the overuse roast is present exactly
    when the count exceeds 10, and the drought roast exactly when it does
    not and the count equals 0.  In a result of [analyze_roast_potential],
    the [emoji_overuse] factor (weight 15) is present exactly when the count
    exceeds 15, and [emoji_drought] (weight 10) exactly when it does not and
    the count equals 0; the score is the sum of the weights of the factors.
    Neither engine ever reports both. *)
Theorem emoji_rules_exclusive (request : RoastRequest) :
  let emoji_count := dict_get request.(analysis).(emojiUsage) "count" (VInt 0) in
  (forall l,
     generate_fallback_roasts py request = Ok l ->
     (In emoji_overuse_roast l <-> py_gt emoji_count (VInt 10) = Ok true) /\
     (In emoji_drought_roast l <->
        py_gt emoji_count (VInt 10) = Ok false /\
        py_eq emoji_count (VInt 0) = true) /\
     ~ (In emoji_overuse_roast l /\ In emoji_drought_roast l)) /\
  (forall r,
     analyze_roast_potential request = Ok r ->
     (In "emoji_overuse" r.(roast_factors) <->
        py_gt emoji_count (VInt 15) = Ok true) /\
     (In "emoji_drought" r.(roast_factors) <->
        py_gt emoji_count (VInt 15) = Ok false /\
        py_eq emoji_count (VInt 0) = true) /\
     ~ (In "emoji_overuse" r.(roast_factors) /\
        In "emoji_drought" r.(roast_factors)) /\
     r.(roast_score) = total_weight r.(roast_factors) /\
     factor_weight "emoji_overuse" = 15 /\ factor_weight "emoji_drought" = 10).
Proof.
  cbv zeta. split.
  - intros l Hl. apply fallback_membership in Hl.
    destruct Hl as (night_owl & overuse & lonely & Hl). cbv zeta in Hl.
    destruct Hl as (_ & Ho & _ & _ & Hover & Hdrought & _).
    rewrite Hover, Hdrought, Ho.
    destruct overuse; repeat split; intros; intuition congruence.
  - intros r Hr. apply scorer_membership in Hr.
    destruct Hr as (overuse & awkward & night_owl & Hr). cbv zeta in Hr.
    destruct Hr as (Ho & _ & _ & Hover & Hdrought & _ & _ & Hscore).
    rewrite Hover, Hdrought, Ho.
    destruct overuse; repeat split; intros; intuition congruence.
Qed.

(** C9. When [userStats] has no [followRatio], the two engines read
    different defaults: [generate_fallback_roasts] reads 0, which is below
    0.5, so every list it returns holds the follow-ratio roast;
    [analyze_roast_potential] reads 1, which is not below 0.3, so no factor
    list it returns holds [social_awkwardness]. *)
Theorem follow_ratio_defaults_differ (request : RoastRequest) :
  let stats := request.(analysis).(userStats) in
  lookup "followRatio" stats = None ->
  dict_get stats "followRatio" (VInt 0) = VInt 0 /\
  dict_get stats "followRatio" (VInt 1) = VInt 1 /\
  py_lt (VInt 0) (VFloat 0.5) = Ok true /\
  py_lt (VInt 1) (VFloat 0.3) = Ok false /\
  (forall l, generate_fallback_roasts py request = Ok l ->
             In follow_ratio_roast l) /\
  (forall r, analyze_roast_potential request = Ok r ->
             ~ In "social_awkwardness" r.(roast_factors)).
Proof.
  cbv zeta. intro Hmissing.
  assert (H0 : dict_get (userStats (analysis request)) "followRatio" (VInt 0) = VInt 0)
    by (unfold dict_get; rewrite Hmissing; reflexivity).
  assert (H1 : dict_get (userStats (analysis request)) "followRatio" (VInt 1) = VInt 1)
    by (unfold dict_get; rewrite Hmissing; reflexivity).
  split; [exact H0 | split; [exact H1 | ]].
  split; [reflexivity | split; [reflexivity | split]].
  - intros l Hl. apply fallback_membership in Hl.
    destruct Hl as (night_owl & overuse & lonely & Hl). cbv zeta in Hl.
    destruct Hl as (_ & _ & Hf & _ & _ & _ & Hin).
    apply Hin. rewrite H0 in Hf.
    change (py_lt (VInt 0) (VFloat 0.5)) with (@Ok bool true) in Hf. congruence.
  - intros r Hr. apply scorer_membership in Hr.
    destruct Hr as (overuse & awkward & night_owl & Hr). cbv zeta in Hr.
    destruct Hr as (_ & Hw & _ & _ & _ & Hin & _).
    rewrite Hin. rewrite H1 in Hw.
    change (py_lt (VInt 1) (VFloat 0.3)) with (@Ok bool false) in Hw. congruence.
Qed.

(** ** The prompt builder on well-typed requests *)

Lemma forallb_firstn {A : Type} (p : A -> bool) (n : nat) (l : list A) :
  forallb p l = true -> forallb p (firstn n l) = true.
Proof.
  revert n. induction l as [ | x r IH]; intros [ | n] H; simpl in *;
    try reflexivity.
  apply andb_true_iff in H. destruct H as [Hx Hr].
  rewrite Hx. simpl. apply IH. exact Hr.
Qed.

Lemma max_by_total (key : string -> value) (rest : list string) :
  forall best best_val,
    is_number best_val = true ->
    forallb (fun k => is_number (key k)) rest = true ->
    exists k, max_by key best best_val rest = Ok k.
Proof.
  induction rest as [ | k r IH]; intros best best_val Hbest Hrest; simpl in *.
  - eauto.
  - apply andb_true_iff in Hrest. destruct Hrest as [Hk Hr].
    destruct (py_gt_total (key k) best_val Hk Hbest) as [[ | ] Hgt];
      rewrite Hgt; simpl; apply IH; assumption.
Qed.

Lemma keys_are_numbers (d : dict) :
  forallb is_number (values d) = true ->
  forall ks,
    incl ks (keys d) ->
    forallb (fun k => is_number (dict_get d k VNone)) ks = true.
Proof.
  intros Hd ks Hincl. apply forallb_forall. intros k Hk.
  apply Hincl in Hk. unfold dict_get.
  destruct (lookup k d) as [v | ] eqn:Hlookup.
  - rewrite forallb_forall in Hd. apply Hd. exact (lookup_In k d v Hlookup).
  - exfalso. clear Hd Hincl. induction d as [ | [k' w] r IH]; simpl in *.
    + exact Hk.
    + destruct (String.eqb_spec k k') as [Heq | Hneq]; [discriminate | ].
      destruct Hk as [Hk | Hk]; [congruence | auto].
Qed.

Lemma most_active_time_total (commit_times : value) :
  is_number_dict commit_times = true ->
  exists s,
    (if truthy commit_times then py_max_key commit_times else Ok "unknown") = Ok s.
Proof.
  destruct commit_times as [ | | | | | | d]; try discriminate.
  simpl. intro Hd.
  destruct d as [ | [k v] r]; [eauto | ].
  pose proof (keys_are_numbers _ Hd (keys ((k, v) :: r)) (incl_refl _)) as Hkeys.
  simpl in Hkeys. apply andb_true_iff in Hkeys. destruct Hkeys as [Hk Hr].
  cbn [keys map fst].
  apply max_by_total; assumption.
Qed.

Lemma emoji_entries_total (l : list value) :
  forallb is_emoji_entry l = true ->
  exists es,
    mapM (fun e => py_get e "emoji" (VStr "")) l = Ok es /\
    forallb is_str es = true.
Proof.
  induction l as [ | e r IH]; simpl; intro H.
  - exists []. auto.
  - apply andb_true_iff in H. destruct H as [He Hr].
    destruct (IH Hr) as (es & Hes & Hstr).
    destruct e; try discriminate He. simpl in He |- *.
    rewrite Hes. simpl. eexists. split; [reflexivity | ].
    simpl. rewrite He. exact Hstr.
Qed.

Lemma py_join_total (sep : string) (items : list value) :
  forallb is_str items = true -> exists s, py_join sep items = Ok s.
Proof.
  intro H. unfold py_join.
  assert (Hmap : exists ss, mapM as_str items = Ok ss).
  { induction items as [ | v r IH]; simpl in *.
    - eauto.
    - apply andb_true_iff in H. destruct H as [Hv Hr].
      destruct (IH Hr) as [ss Hss].
      destruct v; try discriminate Hv. simpl. rewrite Hss. simpl. eauto. }
  destruct Hmap as [ss Hss]. rewrite Hss. simpl. eauto.
Qed.

Lemma py_format_1f_total (v : value) :
  is_float_convertible v = true -> exists s, py_format_1f v = Ok s.
Proof.
  unfold is_float_convertible, is_number, int_magnitude, py_format_1f.
  destruct v; simpl; try discriminate; intro H; eauto.
  - destruct b; vm_compute; eauto.
  - apply Z.ltb_lt in H. destruct (float_of_Z_total z H) as [f Hf].
    rewrite Hf. simpl. eauto.
Qed.

Lemma questionable_lines_total (items : list value) :
  forallb is_printable items = true ->
  exists lines,
    mapM (fun msg =>
            msg_shown <- py_str py msg ;;
            Ok ("- " ++ msg_shown)) items = Ok lines.
Proof.
  induction items as [ | msg r IH]; cbn [forallb mapM]; intro H.
  - eauto.
  - apply andb_true_iff in H. destruct H as [Hmsg Hr].
    destruct (py_str_printable msg Hmsg) as [shown Hshown].
    destruct (IH Hr) as [lines Hlines].
    rewrite Hshown. cbn [bind]. rewrite Hlines. cbn [bind]. eauto.
Qed.

(** C7 (as amended). [create_roast_prompt] is a function of the request (and
    of the interpreter's [repr] of floats), and it returns a prompt for every
    request in which: every integer it prints has at most 4300 digits (the
    user's three counters, the two list lengths, and [accountAge],
    [emojiUsage.count], [abandonedRepos], [oneCommitWonders] and the
    questionable messages where these are integers); none of the last five
    is a list or an object; [languages] is a mapping; [timeOfDay] is a
    mapping of numbers; [questionableMessages] is a list; [topEmojis] is a
    list of objects with string emojis; [namingPatterns] is a list of
    strings; and [repoToStarRatio] and [followRatio] are numbers that [float]
    accepts.  Every key that is absent takes its default and counts as well
    typed. *)
Theorem prompt_returns_on_typed_requests (request : RoastRequest) :
  prompt_typed request = true ->
  exists prompt, create_roast_prompt py request = Ok prompt.
Proof.
  unfold prompt_typed, counters_printable. cbv zeta. intro H.
  apply andb_true_iff in H. destruct H as [H Hfollow].
  apply andb_true_iff in H. destruct H as [H Hstars].
  apply andb_true_iff in H. destruct H as [H Hnaming].
  apply andb_true_iff in H. destruct H as [H Hemojis].
  apply andb_true_iff in H. destruct H as [H Hquestionable].
  apply andb_true_iff in H. destruct H as [H Htimes].
  apply andb_true_iff in H. destruct H as [H Hlanguages].
  apply andb_true_iff in H. destruct H as [H Hwonders].
  apply andb_true_iff in H. destruct H as [H Habandoned].
  apply andb_true_iff in H. destruct H as [H Hcount].
  apply andb_true_iff in H. destruct H as [H Hage].
  apply andb_true_iff in H. destruct H as [H Hrepos].
  apply andb_true_iff in H. destruct H as [H Hcommits].
  apply andb_true_iff in H. destruct H as [H Hfollowing].
  apply andb_true_iff in H. destruct H as [Hpublic Hfollowers].
  unfold create_roast_prompt. cbv zeta.
  destruct (dict_get (repoAnalysis (analysis request)) "languages" (VDict []))
    as [ | | | | | | languages]; try discriminate Hlanguages.
  cbn [py_keys bind].
  destruct (most_active_time_total _ Htimes) as [most_active Hactive].
  rewrite Hactive. cbn [bind].
  destruct (dict_get (commitLanguage (analysis request)) "questionableMessages"
              (VList [])) as [ | | | | | questionable | ];
    try discriminate Hquestionable.
  destruct (dict_get (emojiUsage (analysis request)) "topEmojis" (VList []))
    as [ | | | | | top_emojis | ]; try discriminate Hemojis.
  destruct (dict_get (repoAnalysis (analysis request)) "namingPatterns" (VList []))
    as [ | | | | | naming | ]; try discriminate Hnaming.
  cbn [py_slice_to py_items bind].
  cbn [is_list_of] in Hemojis, Hnaming, Hquestionable.
  destruct (py_str_printable _ Hage) as [age_shown Hage_shown].
  rewrite Hage_shown. cbn [bind].
  rewrite (int_str_fits _ Hpublic), (int_str_fits _ Hfollowers),
    (int_str_fits _ Hfollowing), (int_str_fits _ Hcommits). cbn [bind].
  destruct (py_str_printable _ Hcount) as [count_shown Hcount_shown].
  rewrite Hcount_shown. cbn [bind].
  destruct (emoji_entries_total _ (forallb_firstn _ 3 _ Hemojis))
    as (emojis & Hmap & Hstr).
  rewrite Hmap. cbn [bind].
  destruct (py_join_total ", " emojis Hstr) as [emojis_shown Hjoin].
  rewrite Hjoin. cbn [bind].
  rewrite (int_str_fits _ Hrepos). cbn [bind].
  destruct (py_str_printable _ Habandoned) as [abandoned_shown Habandoned_shown].
  rewrite Habandoned_shown. cbn [bind].
  destruct (py_str_printable _ Hwonders) as [wonders_shown Hwonders_shown].
  rewrite Hwonders_shown. cbn [bind].
  destruct (py_join_total ", " _ (forallb_firstn _ 3 _ Hnaming))
    as [naming_shown Hnames].
  rewrite Hnames. cbn [bind].
  destruct (py_format_1f_total _ Hstars) as [stars_shown Hs].
  rewrite Hs. cbn [bind].
  destruct (py_format_1f_total _ Hfollow) as [follow_shown Hf].
  rewrite Hf. cbn [bind].
  destruct (questionable_lines_total _
              (forallb_firstn _ 3 _ (forallb_firstn _ 5 _ Hquestionable)))
    as [lines Hlines].
  rewrite Hlines. cbn [bind].
  eexists. reflexivity.
Qed.

(** C8. The "Primary Languages" line of the prompt (the fifteenth line of
    the template) lists the first three keys of [languages] in the mapping's
    own order, whatever their counts; "None detected" when there is no
    key. *)
Theorem primary_languages_in_insertion_order
  (request : RoastRequest) (languages : dict) (prompt : string) :
  lookup "languages" request.(analysis).(repoAnalysis) = Some (VDict languages) ->
  create_roast_prompt py request = Ok prompt ->
  exists lines,
    prompt = String.concat nl lines /\
    nth_error lines 14 =
      Some ("- Primary Languages: " ++
            match firstn 3 (keys languages) with
            | [] => "None detected"
            | first_three => String.concat ", " first_three
            end).
Proof.
  intros Hlanguages H.
  unfold create_roast_prompt in H. cbv zeta in H.
  assert (Hget :
    dict_get (repoAnalysis (analysis request)) "languages" (VDict []) =
    VDict languages) by (unfold dict_get; rewrite Hlanguages; reflexivity).
  rewrite Hget in H. cbn [py_keys bind] in H.
  repeat step H.
  apply (f_equal (fun r => match r with Ok p => p | Raise _ => "" end)) in H.
  cbv beta iota in H. subst prompt.
  eexists. split; [reflexivity | ].
  cbn [nth_error]. destruct (firstn 3 (keys languages)); reflexivity.
Qed.

(** ** The handler without a credential *)

(** What the fallback generator can raise: only what the interpreter raises
    on an ill-typed or oversized value. *)
Lemma float_of_Z_raises (z : Z) (e : exn) :
  float_of_Z z = Raise e -> is_builtin_error e = true.
Proof.
  unfold float_of_Z. destruct (Z.abs z <? float_limit); intro H;
    inversion H; reflexivity.
Qed.

Lemma py_order_number_raises (a b : value) (e : exn) :
  is_number b = true -> py_order a b = Raise e -> is_builtin_error e = true.
Proof.
  intros Hb H.
  destruct b; try discriminate Hb; destruct a; simpl in H;
    inversion H; reflexivity.
Qed.

Lemma py_lt_number_raises (a b : value) (e : exn) :
  is_number b = true -> py_lt a b = Raise e -> is_builtin_error e = true.
Proof.
  intros Hb H. unfold py_lt in H.
  destruct (py_order a b) as [o | e'] eqn:Ho; simpl in H; inversion H; subst.
  exact (py_order_number_raises a b e Hb Ho).
Qed.

Lemma py_gt_number_raises (a b : value) (e : exn) :
  is_number b = true -> py_gt a b = Raise e -> is_builtin_error e = true.
Proof.
  intros Hb H. unfold py_gt in H.
  destruct (py_order a b) as [o | e'] eqn:Ho; simpl in H; inversion H; subst.
  exact (py_order_number_raises a b e Hb Ho).
Qed.

Lemma py_add_raises (a b : value) (e : exn) :
  py_add a b = Raise e -> is_builtin_error e = true.
Proof.
  unfold py_add.
  destruct (as_number a) as [[x | f] | ], (as_number b) as [[y | g] | ];
    simpl; intro H; try (inversion H; reflexivity).
  - destruct (float_of_Z x) eqn:Hx; simpl in H; inversion H; subst.
    exact (float_of_Z_raises x e Hx).
  - destruct (float_of_Z y) eqn:Hy; simpl in H; inversion H; subst.
    exact (float_of_Z_raises y e Hy).
Qed.

Lemma sum_from_raises (vs : list value) (e : exn) :
  forall acc, sum_from acc vs = Raise e -> is_builtin_error e = true.
Proof.
  induction vs as [ | v r IH]; intros acc H; simpl in H.
  - discriminate H.
  - destruct (py_add acc v) as [t | e'] eqn:Hadd; simpl in H.
    + exact (IH t H).
    + inversion H; subst. exact (py_add_raises acc v e Hadd).
Qed.

Lemma py_mul_float_outcome (v : value) (c : float) :
  (exists f, py_mul_float v c = Ok (VFloat f)) \/
  (exists e, py_mul_float v c = Raise e /\ is_builtin_error e = true).
Proof.
  unfold py_mul_float. destruct (as_number v) as [[z | f] | ].
  - destruct (float_of_Z z) as [f | e] eqn:Hz; simpl.
    + left. eauto.
    + right. exists e. split; [reflexivity | exact (float_of_Z_raises z e Hz)].
  - left. eauto.
  - right. exists TypeError. auto.
Qed.

Lemma night_share_raises (commit_times : value) (fraction : float) (e : exn) :
  night_share_exceeds commit_times fraction = Raise e ->
  is_builtin_error e = true.
Proof.
  unfold night_share_exceeds.
  destruct commit_times; simpl; intro H; try (inversion H; reflexivity).
  unfold py_sum in H.
  destruct (sum_from (VInt 0) (values d)) as [t | e'] eqn:Hsum; simpl in H.
  - destruct (py_mul_float_outcome t fraction) as [[f Hf] | (e' & He' & Hb)];
      rewrite ?Hf, ?He' in H; simpl in H.
    + exact (py_gt_number_raises _ (VFloat f) e eq_refl H).
    + inversion H; subst. exact Hb.
  - inversion H; subst. exact (sum_from_raises _ e _ Hsum).
Qed.

Lemma py_floordiv_raises (v : value) (e : exn) :
  py_floordiv py v 365 = Raise e -> is_builtin_error e = true.
Proof.
  unfold py_floordiv. destruct (as_number v) as [[z | f] | ]; intro H.
  - discriminate H.
  - change (float_of_Z 365) with (Ok 365%float) in H. discriminate H.
  - inversion H. reflexivity.
Qed.

Lemma py_floordiv_number (v years : value) :
  py_floordiv py v 365 = Ok years -> is_number years = true.
Proof.
  unfold py_floordiv. destruct (as_number v) as [[z | f] | ]; intro H.
  - inversion H. reflexivity.
  - change (float_of_Z 365) with (Ok 365%float) in H. inversion H. reflexivity.
  - discriminate H.
Qed.

Lemma py_gt_int_number (v : value) (k : Z) (b : bool) :
  py_gt v (VInt k) = Ok b -> is_number v = true.
Proof.
  unfold py_gt. destruct v; cbn; intro H; try discriminate H; reflexivity.
Qed.

(** Printing a number raises nothing but the [ValueError] of the digit
    limit. *)
Lemma py_str_number_raises (v : value) (e : exn) :
  is_number v = true ->
  py_str py v = Raise e -> is_builtin_error e = true.
Proof.
  destruct v as [ | [ | ] | z | f | s | l | d]; cbn [py_str];
    intros Hv H; try discriminate Hv; try discriminate H.
  unfold int_str in H. destruct (fits_str z); inversion H. reflexivity.
Qed.

Lemma fallback_raises (request : RoastRequest) (e : exn) :
  generate_fallback_roasts py request = Raise e ->
  is_builtin_error e = true.
Proof.
  unfold generate_fallback_roasts. cbv zeta. intro H.
  destruct (py_lt _ (VInt 365)) as [is_new | e1] eqn:Hnew; cbn [bind] in H;
    [ | inversion H; subst; exact (py_lt_number_raises _ (VInt 365) e eq_refl Hnew)].
  match type of H with
  | bind ?age _ = _ => destruct age as [roasts | e1] eqn:Hage
  end; cbn [bind] in H.
  - destruct (night_share_exceeds _ _) as [night_owl | e2] eqn:Hn; cbn [bind] in H;
      [ | inversion H; subst; exact (night_share_raises _ _ e Hn)].
    destruct (py_gt _ (VInt 10)) as [overuse | e3] eqn:Ho; cbn [bind] in H;
      [ | inversion H; subst; exact (py_gt_number_raises _ (VInt 10) e eq_refl Ho)].
    destruct (py_gt _ (VInt 0)) as [abandoned | e4] eqn:Ha; cbn [bind] in H;
      [ | inversion H; subst; exact (py_gt_number_raises _ (VInt 0) e eq_refl Ha)].
    match type of H with
    | bind ?block _ = _ => destruct block as [roasts' | e8] eqn:Hblock
    end; cbn [bind] in H.
    + destruct (py_lt _ (VFloat 0.5)) as [lonely | e5] eqn:Hf; cbn [bind] in H;
        [ | inversion H; subst;
            exact (py_lt_number_raises _ (VFloat 0.5) e eq_refl Hf)].
      discriminate H.
    + inversion H; subst e8. clear H.
      destruct abandoned; [ | discriminate Hblock].
      destruct (py_str _ _) as [shown | e9] eqn:Hshown; cbn [bind] in Hblock;
        [discriminate Hblock | ].
      inversion Hblock; subst.
      exact (py_str_number_raises _ e (py_gt_int_number _ _ _ Ha) Hshown).
  - inversion H; subst e1. clear H.
    destruct is_new; [discriminate Hage | ].
    destruct (py_gt _ (VInt 3650)) as [is_old | e6] eqn:Hold; cbn [bind] in Hage;
      [ | inversion Hage; subst; exact (py_gt_number_raises _ (VInt 3650) e eq_refl Hold)].
    destruct is_old; [ | discriminate Hage].
    destruct (py_floordiv _ _ _) as [years | e7] eqn:Hyears; cbn [bind] in Hage;
      [ | inversion Hage; subst; exact (py_floordiv_raises _ e Hyears)].
    destruct (py_str _ _) as [shown | e9] eqn:Hshown; cbn [bind] in Hage;
      [discriminate Hage | ].
    inversion Hage; subst.
    exact (py_str_number_raises _ e (py_floordiv_number _ _ Hyears) Hshown).
Qed.

(** C1 (the code departs from it). With [GEMINI_API_KEY] unset or empty, the
    handler raises its [HTTPException(500)] inside its own [try] block, whose
    [except Exception] clause catches it: what the caller gets is the
    fallback response, with source ["fallback"], exactly as when the client
    call fails, and never the 500 with the configuration message. *)
Theorem missing_key_answers_with_fallback (api_key : option string)
  (generate_content : string -> result (option GeneratedRoasts))
  (request : RoastRequest) :
  key_missing api_key = true ->
  generate_roasts py api_key generate_content request =
    fallback_response py request /\
  generate_roasts py api_key generate_content request <>
    Raise (HTTPException 500 missing_key_detail) /\
  forall l,
    generate_fallback_roasts py request = Ok l ->
    generate_roasts py api_key generate_content request =
      Ok {| roasts := l; source := "fallback"; overall_tone := "mysterious";
            metadata := None |}.
Proof.
  intro Hmissing.
  assert (Heq :
    generate_roasts py api_key generate_content request =
    fallback_response py request).
  { unfold generate_roasts. rewrite Hmissing. reflexivity. }
  split; [exact Heq | split].
  - rewrite Heq. unfold fallback_response.
    destruct (generate_fallback_roasts py request)
      as [l | e] eqn:Hrun; simpl; [discriminate | ].
    intro H. inversion H; subst.
    pose proof (fallback_raises request _ Hrun) as Hb. discriminate Hb.
  - intros l Hl. rewrite Heq. unfold fallback_response. rewrite Hl. reflexivity.
Qed.

End Properties.

(** * Closed instances

    Each theorem with a hypothesis is applied here to one of the sample
    requests, and each amended claim comes with the request on which the
    original fails.  The interpreter's two [repr]s and float floor division
    are instantiated by the stand-ins: no sample prints a float or a
    container, or divides one. *)

(** C1 at the sample payload, with a client that would have answered: the
    caller gets the three fallback roasts and source ["fallback"]. *)
Lemma missing_key_answers_with_fallback_sample :
  key_missing None = true /\
  generate_roasts stand_in None answering_client
    sample_request =
    Ok {| roasts :=
            [ night_owl_roast; abandoned_repos_roast "1"; follow_ratio_roast ];
          source := "fallback";
          overall_tone := "mysterious";
          metadata := None |}.
Proof.
  split; [reflexivity | ].
  exact (proj2 (proj2
           (missing_key_answers_with_fallback stand_in
              None answering_client sample_request eq_refl))
           [ night_owl_roast; abandoned_repos_roast "1"; follow_ratio_roast ]
           eq_refl).
Defined.

(** C2 as stated fails where a consulted value is not a number: with
    [followRatio] null the generator raises instead of returning a list. *)
Lemma fallback_raises_on_null_follow_ratio :
  generate_fallback_roasts stand_in null_follow_ratio_request = Raise TypeError.
Proof. reflexivity. Qed.

Lemma fallback_returns_1_to_6_in_order_sample :
  fallback_typed sample_request = true /\
  exists rules,
    in_rule_order sample_request.(user).(login) rules /\
    generate_fallback_roasts stand_in sample_request =
      Ok (padded rules) /\
    padded rules =
      (rules ++ (if (List.length rules <? 3)%nat then filler_roasts else []))%list /\
    (1 <= List.length (padded rules) <= 6)%nat.
Proof.
  split; [reflexivity | ].
  exact (fallback_returns_1_to_6_in_order stand_in sample_request eq_refl).
Defined.

(** C10 as stated fails the same way: with [accountAge] a string, the first
    comparison raises. *)
Lemma fallback_raises_on_string_account_age :
  generate_fallback_roasts stand_in
    string_account_age_request = Raise TypeError.
Proof. reflexivity. Qed.

Lemma fallback_returns_at_least_3_idle :
  fallback_typed idle_request = true /\
  exists rules l,
    in_rule_order idle_request.(user).(login) rules /\
    generate_fallback_roasts stand_in idle_request = Ok l /\
    ((List.length rules < 3)%nat -> l = (rules ++ filler_roasts)%list) /\
    ((3 <= List.length rules)%nat -> l = rules) /\
    (3 <= List.length l <= 6)%nat.
Proof.
  split; [reflexivity | ].
  exact (fallback_returns_at_least_3 stand_in idle_request eq_refl).
Defined.

(** C3 as stated fails where a scored value is not a number: with
    [averageLength] null the scorer raises instead of returning a score. *)
Lemma scorer_raises_on_null_average_length :
  analyze_roast_potential null_average_length_request = Raise TypeError.
Proof. reflexivity. Qed.

(** C3 at the sample payload (scenario B of the spec): the questionable
    messages, the follow ratio 0.21 and the four night commits out of five
    trigger their rules, and nothing else does; score 55, in the middle
    tier. *)
Lemma roast_score_sums_triggered_weights_sample :
  scorer_typed sample_request = true /\
  exists r,
    analyze_roast_potential sample_request = Ok r /\
    r.(roast_score) = 20 + 15 + 20 /\
    r.(roast_score) = total_weight r.(roast_factors) /\
    r.(roastability_level) = "moderately_roastable".
Proof.
  split; [reflexivity | ].
  destruct (roast_score_sums_triggered_weights sample_request eq_refl)
    as (overuse & abandonment & awkward & night_owl & lazy & r &
        Ho & Ha & Hw & Hn & Hl & Hr & Hscore & Hsum & _ & _ & Hmid & _).
  exists r. split; [exact Hr | ].
  pose proof (Ok_inj false overuse Ho) as Eo.
  pose proof (Ok_inj false abandonment Ha) as Ea.
  pose proof (Ok_inj true awkward Hw) as Ew.
  pose proof (Ok_inj true night_owl Hn) as En.
  pose proof (Ok_inj false lazy Hl) as El.
  subst overuse abandonment awkward night_owl lazy.
  assert (Hvalue : roast_score r = 20 + 15 + 20) by exact Hscore.
  split; [exact Hvalue | ].
  split; [exact Hsum | ].
  apply Hmid. rewrite Hvalue. split; [discriminate | reflexivity].
Defined.

(** C4 where every count is zero, and where there is no [timeOfDay] at all. *)
Lemma night_owl_silent_on_zero_counts_idle :
  (all_counts_zero
     (dict_get idle_request.(analysis).(commitPatterns) "timeOfDay" (VDict []))
   = true /\
   all_counts_zero
     (dict_get bare_request.(analysis).(commitPatterns) "timeOfDay" (VDict []))
   = true) /\
  (night_share_exceeds
     (dict_get idle_request.(analysis).(commitPatterns) "timeOfDay" (VDict []))
     0.4 = Ok false /\
   night_share_exceeds
     (dict_get bare_request.(analysis).(commitPatterns) "timeOfDay" (VDict []))
     0.5 = Ok false).
Proof.
  split; [split; reflexivity | ].
  split.
  - exact (proj1 (night_owl_silent_on_zero_counts stand_in
                    idle_request eq_refl)).
  - exact (proj1 (proj2
             (night_owl_silent_on_zero_counts stand_in bare_request eq_refl))).
Defined.

(** C5 at the payload of [integration_test.py], which is scenario A. *)
Lemma scenario_A_three_roasts_sample :
  generate_fallback_roasts stand_in sample_request =
    Ok [ night_owl_roast; abandoned_repos_roast "1"; follow_ratio_roast ].
Proof.
  exact (scenario_A_three_roasts stand_in sample_request
           eq_refl eq_refl eq_refl eq_refl eq_refl).
Defined.

(** C6 with twelve emojis: over the generator's limit, under the scorer's. *)
Lemma emoji_rules_exclusive_twelve :
  exists l r,
    generate_fallback_roasts stand_in twelve_emoji_request
      = Ok l /\
    analyze_roast_potential twelve_emoji_request = Ok r /\
    In emoji_overuse_roast l /\ ~ In emoji_drought_roast l /\
    ~ In "emoji_overuse" r.(roast_factors) /\
    ~ In "emoji_drought" r.(roast_factors).
Proof.
  destruct (emoji_rules_exclusive stand_in
              twelve_emoji_request) as [Hfallback Hscorer].
  eexists. eexists.
  split; [reflexivity | split; [reflexivity | ]].
  destruct (Hfallback _ eq_refl) as (Hover & Hdrought & _).
  destruct (Hscorer _ eq_refl) as (Sover & Sdrought & _).
  split; [apply Hover; reflexivity | ].
  split; [intro H; apply Hdrought in H; destruct H as [H _]; discriminate H | ].
  split.
  - intro H. apply Sover in H. discriminate H.
  - intro H. apply Sdrought in H. destruct H as [_ H]. discriminate H.
Defined.

(** C7 as stated fails where a formatted value is not a number: a
    [repoToStarRatio] that arrives as a string is rejected by the [.1f]
    format. *)
Lemma prompt_raises_on_string_ratio :
  create_roast_prompt stand_in string_star_ratio_request = Raise ValueError.
Proof. reflexivity. Qed.

(** ... while the sample payload gets its prompt. *)
Lemma prompt_returns_on_sample_request :
  prompt_typed sample_request = true /\
  exists prompt,
    create_roast_prompt stand_in sample_request = Ok prompt.
Proof.
  split; [reflexivity | ].
  exact (prompt_returns_on_typed_requests stand_in sample_request eq_refl).
Defined.

(** C8 where the first three keys are the three rarest languages. *)
Lemma primary_languages_rare_first :
  exists prompt lines,
    create_roast_prompt stand_in rare_first_request = Ok prompt /\
    prompt = String.concat nl lines /\
    nth_error lines 14 = Some "- Primary Languages: HTML, CSS, Python" /\
    most_frequent_languages rare_first_languages = [ "Rust"; "Python"; "CSS" ].
Proof.
  destruct (primary_languages_in_insertion_order stand_in
              rare_first_request rare_first_languages _ eq_refl eq_refl)
    as (lines & Hprompt & Hline).
  eexists. exists lines.
  split; [reflexivity | split; [exact Hprompt | split; [exact Hline | reflexivity]]].
Defined.

(** C9 on the sample without its [followRatio]. *)
Lemma follow_ratio_defaults_differ_sample :
  lookup "followRatio" no_follow_ratio_request.(analysis).(userStats) = None /\
  exists l r,
    generate_fallback_roasts stand_in no_follow_ratio_request = Ok l /\
    analyze_roast_potential no_follow_ratio_request = Ok r /\
    In follow_ratio_roast l /\
    ~ In "social_awkwardness" r.(roast_factors).
Proof.
  split; [reflexivity | ].
  destruct (follow_ratio_defaults_differ stand_in
              no_follow_ratio_request eq_refl)
    as (_ & _ & _ & _ & Hfallback & Hscorer).
  eexists. eexists.
  split; [reflexivity | split; [reflexivity | ]].
  split; [exact (Hfallback _ eq_refl) | exact (Hscorer _ eq_refl)].
Defined.

(** * The rest of [main.py] *)

(** ** The two [GET] endpoints *)

(** [GET /]. *)
Definition root : list (string * string) :=
  [ ("message", "GitShame Roaster API - Ready to serve some digital humble pie! üî•") ].

(** [GET /health]. *)
Definition health_check : list (string * string) :=
  [ ("status", "healthy"); ("service", "GitShame Roaster API") ].

(** ** Further readings of the results *)

(** The seven factor tags, in the order the scorer's rules run. *)
Definition all_factor_tags : list string :=
  [ "questionable_commits"; "emoji_overuse"; "emoji_drought"; "repo_abandonment";
    "social_awkwardness"; "night_owl_coding"; "lazy_commit_messages" ].

(** The response of the AI path, from what the model returned. *)
Definition ai_response (data : GeneratedRoasts) : RoastResponse :=
  {| roasts := map text data.(ai_roasts);
     source := "ai";
     overall_tone := data.(ai_overall_tone);
     metadata :=
       Some (map category data.(ai_roasts), map severity data.(ai_roasts)) |}.

(** Every [timeOfDay] value is an [int]. *)
Definition is_int (v : value) : bool :=
  match v with VInt _ => true | _ => false end.

(** The count a key of an all-[int] mapping stands for. *)
Definition count_of (d : dict) (k : string) : Z :=
  match dict_get d k VNone with
  | VInt z => z
  | _ => 0
  end.

(** ** Subsequences by flags *)

(** The items of [xs] whose flag is set, in order. *)
Fixpoint pick {A : Type} (flags : list bool) (xs : list A) : list A :=
  match flags, xs with
  | b :: flags', x :: xs' => if b then x :: pick flags' xs' else pick flags' xs'
  | _, _ => []
  end.

(** Every text of the fallback generator but the account-age ones. *)
Definition later_texts (count_text : string) : list string :=
  ([ night_owl_roast; emoji_overuse_roast; emoji_drought_roast;
     abandoned_repos_roast count_text; follow_ratio_roast ] ++ filler_roasts)%list.

(** ** More samples *)

(** The sample with the interpreter's errors in reach of the client path:
    [languages] sent as a list. *)
Definition list_languages_request : RoastRequest :=
  with_repoAnalysis
    [ ("namingPatterns", VList [ VStr "kebab-case"; VStr "hasApp" ]);
      ("languages", VList [ VStr "JavaScript"; VStr "Python" ]);
      ("abandonedRepos", VInt 1);
      ("oneCommitWonders", VInt 0) ].

(** The sample's [commitLanguage] cut to its first three questionable
    messages. *)
Definition three_messages_commitLanguage : dict :=
  [ ("averageLength", VInt 18);
    ("questionableMessages",
     VList [ VStr "fix stuff"; VStr "why doesn't this work???";
             VStr "oops forgot to commit" ]) ].

(** What the answering client's roasts become. *)
Definition sample_ai_response : RoastResponse :=
  {| roasts := [ "Nice TODO app."; "3 AM again?" ];
     source := "ai";
     overall_tone := "chaos_engineer";
     metadata := Some ([ "repo_patterns"; "coding_habits" ], [ "mild"; "medium" ]) |}.

Section MoreProperties.

Variable py : interpreter.

(** ** The handler, case by case *)

Lemma fallback_twice (request : RoastRequest) :
  try_except (fallback_response py request)
    (fun _ => fallback_response py request) =
  fallback_response py request.
Proof.
  destruct (fallback_response py request); reflexivity.
Qed.

Lemma handler_cases (api_key : option string)
  (generate_content : string -> result (option GeneratedRoasts))
  (request : RoastRequest) :
  generate_roasts py api_key generate_content request =
    if key_missing api_key then fallback_response py request
    else
      match create_roast_prompt py request with
      | Raise _ => fallback_response py request
      | Ok prompt =>
          match generate_content prompt with
          | Ok (Some data) =>
              match data.(ai_roasts) with
              | [] => fallback_response py request
              | _ :: _ => Ok (ai_response data)
              end
          | _ => fallback_response py request
          end
      end.
Proof.
  unfold generate_roasts.
  destruct (key_missing api_key); [reflexivity | ].
  cbn [bind].
  destruct (create_roast_prompt py request) as [prompt | e]; [ | reflexivity].
  cbn [bind].
  destruct (generate_content prompt) as [[data | ] | e]; cbn [bind];
    [ | apply fallback_twice | reflexivity].
  destruct (ai_roasts data) eqn:Hroasts; [apply fallback_twice | ].
  unfold ai_response. rewrite Hroasts. reflexivity.
Qed.

(** X1. Unless the prompt gets built and the client hands back at least one
    roast, [/generate-roasts] answers with the fallback response: a missing
    key, an error while building the prompt, any error of the client, an
    unparsed answer and an empty roast list all end there. *)
Theorem no_ai_answer_means_fallback (api_key : option string)
  (generate_content : string -> result (option GeneratedRoasts))
  (request : RoastRequest) :
  (forall prompt data,
     create_roast_prompt py request = Ok prompt ->
     generate_content prompt = Ok (Some data) ->
     data.(ai_roasts) = []) ->
  generate_roasts py api_key generate_content request =
    fallback_response py request.
Proof.
  intro Hnone. rewrite handler_cases.
  destruct (key_missing api_key); [reflexivity | ].
  destruct (create_roast_prompt py request) as [prompt | e]; [ | reflexivity].
  destruct (generate_content prompt) as [[data | ] | e] eqn:Hcall;
    try reflexivity.
  rewrite (Hnone prompt data eq_refl Hcall). reflexivity.
Qed.

(** X2. With a key, a prompt and at least one roast from the client, the
    answer is the AI response whether or not the fallback generator would
    have worked: the roast texts in the client's order, source ["ai"], the
    client's tone, and category and severity lists as long as the roast
    list. *)
Theorem ai_answer_passes_through (api_key : option string)
  (generate_content : string -> result (option GeneratedRoasts))
  (request : RoastRequest) (prompt : string) (data : GeneratedRoasts) :
  key_missing api_key = false ->
  create_roast_prompt py request = Ok prompt ->
  generate_content prompt = Ok (Some data) ->
  data.(ai_roasts) <> [] ->
  exists categories severities,
    generate_roasts py api_key generate_content request =
      Ok {| roasts := map text data.(ai_roasts);
            source := "ai";
            overall_tone := data.(ai_overall_tone);
            metadata := Some (categories, severities) |} /\
    List.length categories = List.length data.(ai_roasts) /\
    List.length severities = List.length data.(ai_roasts) /\
    List.length (map text data.(ai_roasts)) = List.length data.(ai_roasts) /\
    forall i line, nth_error data.(ai_roasts) i = Some line ->
      nth_error (map text data.(ai_roasts)) i = Some line.(text) /\
      nth_error categories i = Some line.(category) /\
      nth_error severities i = Some line.(severity).
Proof.
  intros Hkey Hprompt Hcall Hsome.
  exists (map category data.(ai_roasts)), (map severity data.(ai_roasts)).
  rewrite handler_cases, Hkey, Hprompt, Hcall.
  destruct (ai_roasts data) as [ | first rest] eqn:Hroasts; [congruence | ].
  split; [unfold ai_response; rewrite Hroasts; reflexivity | ].
  rewrite !length_map.
  repeat split; try reflexivity;
    rewrite nth_error_map; rewrite H; reflexivity.
Qed.

(** X3. The only way [/generate-roasts] fails is the fallback generator
    failing: whatever the handler raises, [generate_fallback_roasts] raises
    on the same request, and it is one of the interpreter's errors, never
    the handler's own [HTTPException] and never an error of the client. *)
Theorem handler_fails_only_with_fallback (api_key : option string)
  (generate_content : string -> result (option GeneratedRoasts))
  (request : RoastRequest) (e : exn) :
  generate_roasts py api_key generate_content request
    = Raise e ->
  generate_fallback_roasts py request = Raise e /\
  is_builtin_error e = true.
Proof.
  rewrite handler_cases. intro H.
  assert (Hfallback : fallback_response py request = Raise e).
  { destruct (key_missing api_key); [exact H | ].
    destruct (create_roast_prompt py request) as [prompt | e']; [ | exact H].
    destruct (generate_content prompt) as [[data | ] | e']; try exact H.
    destruct (ai_roasts data); [exact H | discriminate H]. }
  unfold fallback_response in Hfallback.
  destruct (generate_fallback_roasts py request)
    as [l | e'] eqn:Hrun; simpl in Hfallback; [discriminate Hfallback | ].
  inversion Hfallback; subst e'.
  split; [reflexivity | exact (fallback_raises py request e Hrun)].
Qed.

(** X4. Every response [/generate-roasts] returns carries at least one roast
    and one of two shapes: the fallback shape (source ["fallback"], tone
    ["mysterious"], no metadata, three to five roasts) or the AI shape
    (source ["ai"], metadata lists as long as the roast list). *)
Theorem every_answer_has_a_roast (api_key : option string)
  (generate_content : string -> result (option GeneratedRoasts))
  (request : RoastRequest) (response : RoastResponse) :
  generate_roasts py api_key generate_content request
    = Ok response ->
  response.(roasts) <> [] /\
  ((response.(source) = "fallback" /\
    response.(overall_tone) = "mysterious" /\
    response.(metadata) = None /\
    generate_fallback_roasts py request
      = Ok response.(roasts) /\
    (3 <= List.length response.(roasts) <= 5)%nat) \/
   (response.(source) = "ai" /\
    exists categories severities,
      response.(metadata) = Some (categories, severities) /\
      List.length categories = List.length response.(roasts) /\
      List.length severities = List.length response.(roasts))).
Proof.
  rewrite handler_cases. intro H.
  assert (Hshape :
    fallback_response py request = Ok response \/
    exists data, data.(ai_roasts) <> [] /\ response = ai_response data).
  { destruct (key_missing api_key); [left; exact H | ].
    destruct (create_roast_prompt py request) as [prompt | e];
      [ | left; exact H].
    destruct (generate_content prompt) as [[data | ] | e]; try (left; exact H).
    destruct (ai_roasts data) eqn:Hroasts; [left; exact H | ].
    right. exists data. split; [congruence | ]. inversion H. reflexivity. }
  destruct Hshape as [Hfallback | (data & Hsome & ->)].
  - unfold fallback_response in Hfallback.
    destruct (generate_fallback_roasts py request)
      as [l | e] eqn:Hrun; simpl in Hfallback; [ | discriminate Hfallback].
    inversion Hfallback; subst response. cbn [roasts source overall_tone metadata].
    destruct (fallback_shape py request l Hrun)
      as (rules & _ & Hlen & ->).
    assert (Hbounds : (3 <= List.length (padded rules) <= 5)%nat).
    { rewrite (padded_no_cut rules Hlen), length_app.
      destruct (List.length rules <? 3)%nat eqn:Hshort; simpl.
      - apply Nat.ltb_lt in Hshort. lia.
      - apply Nat.ltb_ge in Hshort. lia. }
    split.
    + intro Hnil. rewrite Hnil in Hbounds. simpl in Hbounds. lia.
    + left. repeat split; try reflexivity; lia.
  - cbn [roasts source metadata ai_response]. split.
    + destruct (ai_roasts data); [congruence | discriminate].
    + right. split; [reflexivity | ].
      do 2 eexists. split; [reflexivity | ].
      rewrite !length_map. split; reflexivity.
Qed.

End MoreProperties.

Section FallbackAndScorer.

Variable py : interpreter.

Lemma In_pick {A : Type} (flags : list bool) (xs : list A) (x : A) :
  In x (pick flags xs) -> In x xs.
Proof.
  revert flags. induction xs as [ | y r IH]; intros [ | b flags]; simpl;
    try tauto.
  destruct b; simpl; intros H; [destruct H as [H | H]; [auto | ] | ];
    right; exact (IH flags H).
Qed.

Lemma NoDup_pick {A : Type} (flags : list bool) (xs : list A) :
  NoDup xs -> NoDup (pick flags xs).
Proof.
  intro Hxs. revert flags.
  induction Hxs as [ | y r Hy Hr IH]; intros [ | b flags]; simpl;
    try constructor.
  destruct b; [ | apply IH].
  constructor; [ | apply IH].
  intro Hin. apply Hy. exact (In_pick flags r y Hin).
Qed.

(** ** No roast twice *)

Ltac texts_differ :=
  let H := fresh in
  intro H;
  unfold new_account_roast, veteran_roast, abandoned_repos_roast, night_owl_roast,
    emoji_overuse_roast, emoji_drought_roast, follow_ratio_roast, filler_roasts,
    later_texts in H;
  cbn [append app In] in H;
  repeat (destruct H as [H | H]; [discriminate H | ]);
  first [ exact H | discriminate H ].

Lemma later_texts_distinct (count_text : string) : NoDup (later_texts count_text).
Proof.
  unfold later_texts, filler_roasts. cbn [app].
  repeat (constructor; [texts_differ | ]). constructor.
Qed.

Lemma age_texts_fresh (s count_text : string) :
  ~ In (new_account_roast s) (later_texts count_text) /\
  ~ In (veteran_roast s) (later_texts count_text).
Proof. split; texts_differ. Qed.

Lemma age_texts_differ (s t : string) : new_account_roast s <> veteran_roast t.
Proof. texts_differ. Qed.

(** A returned list, as the age block's roast followed by a selection of
    the later texts. *)
Lemma fallback_run_picked (request : RoastRequest) (l : list string) :
  generate_fallback_roasts py request = Ok l ->
  exists age flags count_text,
    age_outcome py request age /\
    l = (age ++ pick flags (later_texts count_text))%list.
Proof.
  intro H. apply fallback_run in H.
  destruct H as (age & night_owl & overuse & abandoned & lonely & count_text & H).
  cbv zeta in H. destruct H as (Hage & _ & _ & _ & _ & _ & ->).
  set (drought := py_eq _ _).
  pose proof (age_outcome_length py request age Hage) as Hlen.
  rewrite (padded_no_cut _
             (rule_roasts_length age night_owl overuse drought abandoned lonely
                count_text Hlen)).
  set (short := (_ <? 3)%nat).
  exists age,
    [ night_owl; overuse; negb overuse && drought; abandoned; lonely;
      short; short; short ], count_text.
  split; [exact Hage | ].
  unfold rule_roasts_of, later_texts, filler_roasts.
  rewrite <- !app_assoc.
  destruct night_owl, overuse, drought, abandoned, lonely, short; reflexivity.
Qed.

(** X6. [generate_fallback_roasts] never returns the same roast twice. *)
Theorem fallback_never_repeats (request : RoastRequest) (l : list string) :
  generate_fallback_roasts py request = Ok l -> NoDup l.
Proof.
  intro H. apply fallback_run_picked in H.
  destruct H as (age & flags & count_text & Hage & ->).
  pose proof (NoDup_pick flags _ (later_texts_distinct count_text)) as Hlater.
  destruct Hage as [(_ & ->) | [(_ & _ & years & shown & _ & _ & ->) | (_ & _ & ->)]];
    cbn [app]; try exact Hlater;
    (constructor; [ | exact Hlater]); intro Hin; apply In_pick in Hin;
    revert Hin; apply age_texts_fresh.
Qed.

(** X5. Whatever [generate_fallback_roasts] returns has three to five
    entries: the roasts of the rule blocks in block order, then all three
    fillers if fewer than three rules fired and no filler otherwise.  The
    final [roasts[:6]] never removes an entry. *)
Theorem fallback_keeps_3_to_5 (request : RoastRequest) (l : list string) :
  generate_fallback_roasts py request = Ok l ->
  exists rules,
    in_rule_order request.(user).(login) rules /\
    (List.length rules <= 5)%nat /\
    l = (rules ++ (if (List.length rules <? 3)%nat then filler_roasts else []))%list /\
    (3 <= List.length l <= 5)%nat.
Proof.
  intro H.
  destruct (fallback_shape py request l H)
    as (rules & Horder & Hlen & ->).
  exists rules. rewrite (padded_no_cut rules Hlen).
  repeat split; try assumption; rewrite length_app;
    destruct (List.length rules <? 3)%nat eqn:Hshort; simpl;
    first [ apply Nat.ltb_lt in Hshort | apply Nat.ltb_ge in Hshort ]; lia.
Qed.

(** ** The account-age block on integer ages *)

Lemma py_lt_ints (a b : Z) : py_lt (VInt a) (VInt b) = Ok (a <? b).
Proof.
  unfold py_lt. simpl. unfold Z.ltb. destruct (a ?= b); reflexivity.
Qed.

Lemma py_gt_ints (a b : Z) : py_gt (VInt a) (VInt b) = Ok (b <? a).
Proof.
  unfold py_gt. simpl.
  destruct (Z.compare_spec a b), (Z.ltb_spec b a); simpl; try reflexivity; lia.
Qed.

(** X7. For an integer [accountAge] (0 when the key is absent): below 365
    the returned list starts with the welcome roast naming the login; above
    3650 it starts with the veteran roast naming [accountAge // 365] years;
    from 365 to 3650 it holds neither kind of roast. *)
Theorem account_age_block (request : RoastRequest) (age : Z) (l : list string) :
  dict_get request.(analysis).(userStats) "accountAge" (VInt 0) = VInt age ->
  generate_fallback_roasts py request = Ok l ->
  (age < 365 -> hd_error l = Some (new_account_roast request.(user).(login))) /\
  (3650 < age -> hd_error l = Some (veteran_roast (decimal (age / 365)))) /\
  (365 <= age <= 3650 ->
   forall s, ~ In (new_account_roast s) l /\ ~ In (veteran_roast s) l).
Proof.
  intros Hage H. apply fallback_run_picked in H.
  destruct H as (block & flags & count_text & Hblock & ->).
  unfold age_outcome in Hblock. cbv zeta in Hblock.
  rewrite Hage, py_lt_ints, py_gt_ints in Hblock.
  unfold py_floordiv in Hblock. cbn [as_number] in Hblock.
  destruct Hblock as [(Hnew & ->) | [(Hnew & Hold & years & shown & Hyears & Hshown & ->)
                                    | (Hnew & Hold & ->)]].
  - assert (Hn : (age <? 365) = true) by congruence.
    apply Z.ltb_lt in Hn.
    split; [reflexivity | split; intros; lia].
  - assert (Hn : (age <? 365) = false) by congruence.
    assert (Ho : (3650 <? age) = true) by congruence.
    apply Z.ltb_ge in Hn. apply Z.ltb_lt in Ho.
    inversion Hyears; subst years.
    cbn [py_str] in Hshown. apply int_str_Ok in Hshown.
    destruct Hshown as [_ ->].
    split; [intros; lia | split; [reflexivity | intros; lia]].
  - assert (Hn : (age <? 365) = false) by congruence.
    assert (Ho : (3650 <? age) = false) by congruence.
    apply Z.ltb_ge in Hn. apply Z.ltb_ge in Ho.
    split; [intros; lia | split; [intros; lia | ]].
    intros _ s. cbn [app].
    split; intro Hin; apply In_pick in Hin; revert Hin; apply age_texts_fresh.
Qed.

(** ** Where the two engines draw different lines *)

(** X8. Between 11 and 15 emojis the two engines disagree: every list
    [generate_fallback_roasts] returns holds the overuse roast, while no
    result of [analyze_roast_potential] reports an emoji factor. *)
Theorem emoji_thresholds_differ (request : RoastRequest) (count : Z) :
  dict_get request.(analysis).(emojiUsage) "count" (VInt 0) = VInt count ->
  10 < count <= 15 ->
  (forall l, generate_fallback_roasts py request = Ok l ->
             In emoji_overuse_roast l) /\
  (forall r, analyze_roast_potential request = Ok r ->
             ~ In "emoji_overuse" r.(roast_factors) /\
             ~ In "emoji_drought" r.(roast_factors)).
Proof.
  intros Hcount Hrange. split.
  - intros l Hl. apply fallback_membership in Hl.
    destruct Hl as (night_owl & overuse & lonely & Hl). cbv zeta in Hl.
    destruct Hl as (_ & Ho & _ & _ & Hin & _).
    rewrite Hcount, py_gt_ints in Ho. inversion Ho as [Hover].
    apply Hin. rewrite <- Hover. apply Z.ltb_lt. lia.
  - intros r Hr. apply scorer_membership in Hr.
    destruct Hr as (overuse & awkward & night_owl & Hr). cbv zeta in Hr.
    destruct Hr as (Ho & _ & _ & Hover & Hdrought & _).
    rewrite Hcount, py_gt_ints in Ho. inversion Ho as [Hv].
    assert (Hfalse : (15 <? count) = false) by (apply Z.ltb_ge; lia).
    rewrite Hover, Hdrought, Hcount. rewrite Hfalse in Hv. subst overuse.
    split; [discriminate | ].
    intros [_ Heq]. simpl in Heq.
    destruct (Z.compare_spec count 0); try discriminate Heq. lia.
Qed.

(** X9. With one or two abandoned repos the two engines disagree as well:
    every list [generate_fallback_roasts] returns holds the abandoned-repos
    roast naming the count, while no result of [analyze_roast_potential]
    reports [repo_abandonment]. *)
Theorem abandoned_thresholds_differ (request : RoastRequest) (count : Z) :
  dict_get request.(analysis).(repoAnalysis) "abandonedRepos" (VInt 0)
    = VInt count ->
  0 < count <= 2 ->
  (forall l, generate_fallback_roasts py request = Ok l ->
             In (abandoned_repos_roast (decimal count)) l) /\
  (forall r, analyze_roast_potential request = Ok r ->
             ~ In "repo_abandonment" r.(roast_factors)).
Proof.
  intros Hcount Hrange. split.
  - intros l Hl. apply fallback_run in Hl.
    destruct Hl as (age & night_owl & overuse & abandoned & lonely & count_text
                    & Hl).
    cbv zeta in Hl. destruct Hl as (Hage & _ & _ & Ha & Hshown & _ & ->).
    rewrite Hcount, py_gt_ints in Ha. inversion Ha as [Hv].
    assert (Htrue : (0 <? count) = true) by (apply Z.ltb_lt; lia).
    rewrite Htrue in Hv. subst abandoned.
    specialize (Hshown eq_refl). rewrite Hcount in Hshown.
    cbn [py_str] in Hshown. apply int_str_Ok in Hshown.
    destruct Hshown as [_ ->].
    apply In_padded;
      [apply rule_roasts_length;
       exact (age_outcome_length py request age Hage) | ].
    left. apply In_rule_roasts. right; right; right; right; left. auto.
  - intros r Hr. apply analyze_run in Hr.
    destruct Hr as (overuse & abandonment & awkward & night_owl & lazy & Hr).
    cbv zeta in Hr. destruct Hr as (_ & Ha & _ & _ & _ & ->).
    rewrite Hcount, py_gt_ints in Ha. inversion Ha as [Hv].
    assert (Hfalse : (2 <? count) = false) by (apply Z.ltb_ge; lia).
    rewrite Hfalse in Hv. subst abandonment.
    cbn [roast_factors]. rewrite In_factors.
    intuition congruence.
Qed.

(** X19. An [abandonedRepos] count of more than 4300 digits cannot be
    printed into its roast: [generate_fallback_roasts] returns no list on
    such a request, it raises one of the interpreter's errors. *)
Theorem huge_abandoned_count_raises (request : RoastRequest) (count : Z) :
  dict_get request.(analysis).(repoAnalysis) "abandonedRepos" (VInt 0)
    = VInt count ->
  10 ^ 4300 <= count ->
  exists e,
    generate_fallback_roasts py request
      = Raise e /\
    is_builtin_error e = true.
Proof.
  intros Hcount Hhuge.
  destruct (generate_fallback_roasts py request) as [l | e] eqn:Hrun.
  - exfalso. apply fallback_run in Hrun.
    destruct Hrun as (age & night_owl & overuse & abandoned & lonely & count_text
                      & Hrun).
    cbv zeta in Hrun. destruct Hrun as (_ & _ & _ & Ha & Hshown & _ & _).
    rewrite Hcount in Ha, Hshown. rewrite py_gt_ints in Ha.
    rewrite <- int_str_limit_value in Hhuge.
    pose proof int_str_limit_positive as Hpos.
    assert (Htrue : (0 <? count) = true) by (apply Z.ltb_lt; lia).
    rewrite Htrue in Ha. inversion Ha as [Hv]. subst abandoned.
    specialize (Hshown eq_refl). cbn [py_str] in Hshown.
    rewrite int_str_beyond in Hshown; [discriminate Hshown | ].
    rewrite <- int_str_limit_value. lia.
  - exists e. split; [reflexivity | ].
    exact (fallback_raises py request e Hrun).
Qed.

(** X10. On the emoji drought the two engines agree: when both answer, the
    drought roast is in the generator's list exactly when [emoji_drought] is
    among the scorer's factors, and that is exactly when the count equals
    zero. *)
Theorem drought_agrees_across_engines (request : RoastRequest)
  (l : list string) (r : RoastPotential) :
  generate_fallback_roasts py request = Ok l ->
  analyze_roast_potential request = Ok r ->
  (In emoji_drought_roast l <->
   py_eq (dict_get request.(analysis).(emojiUsage) "count" (VInt 0)) (VInt 0)
     = true) /\
  (In "emoji_drought" r.(roast_factors) <->
   py_eq (dict_get request.(analysis).(emojiUsage) "count" (VInt 0)) (VInt 0)
     = true).
Proof.
  intros Hl Hr.
  apply fallback_membership in Hl.
  destruct Hl as (night_owl & over10 & lonely & Hl). cbv zeta in Hl.
  destruct Hl as (_ & H10 & _ & _ & _ & Hdrought & _).
  apply scorer_membership in Hr.
  destruct Hr as (over15 & awkward & night_owl' & Hr). cbv zeta in Hr.
  destruct Hr as (H15 & _ & _ & _ & Sdrought & _).
  rewrite Hdrought, Sdrought.
  split; (split; [tauto | ]); intro Hzero; (split; [ | exact Hzero]).
  - rewrite (zero_not_above _ 10 ltac:(lia) Hzero) in H10. congruence.
  - rewrite (zero_not_above _ 15 ltac:(lia) Hzero) in H15. congruence.
Qed.

End FallbackAndScorer.

Section ScorerProperties.

(** ** The factor list and the score *)

Lemma factors_picked
  (questionable overuse drought abandonment awkward night_owl lazy : bool) :
  factors_of questionable overuse drought abandonment awkward night_owl lazy =
  pick [ questionable; overuse; negb overuse && drought; abandonment; awkward;
         night_owl; lazy ] all_factor_tags.
Proof.
  destruct questionable, overuse, drought, abandonment, awkward, night_owl, lazy;
    reflexivity.
Qed.

Lemma all_factor_tags_distinct : NoDup all_factor_tags.
Proof.
  unfold all_factor_tags.
  repeat (constructor;
          [cbn [In]; intro H;
           repeat (destruct H as [H | H]; [discriminate H | ]); exact H | ]).
  constructor.
Qed.

Lemma factors_arithmetic
  (questionable overuse drought abandonment awkward night_owl lazy : bool) :
  let factors :=
    factors_of questionable overuse drought abandonment awkward night_owl lazy in
  (List.length factors <=? 6)%nat = true /\
  total_weight factors mod 5 = 0 /\
  (total_weight factors =? 0) = match factors with [] => true | _ => false end.
Proof.
  destruct questionable, overuse, drought, abandonment, awkward, night_owl, lazy;
    vm_compute; repeat split.
Qed.

(** X11. The factors [analyze_roast_potential] reports are distinct tags out
    of the seven, in the order of the rules, at most six of them; the score
    is a multiple of 5, and it is 0 exactly when no factor is reported. *)
Theorem factors_in_rule_order (request : RoastRequest) (r : RoastPotential) :
  analyze_roast_potential request = Ok r ->
  (exists flags, r.(roast_factors) = pick flags all_factor_tags) /\
  NoDup r.(roast_factors) /\
  (List.length r.(roast_factors) <= 6)%nat /\
  r.(roast_score) mod 5 = 0 /\
  (r.(roast_score) = 0 <-> r.(roast_factors) = []).
Proof.
  intro H. apply analyze_run in H.
  destruct H as (overuse & abandonment & awkward & night_owl & lazy & H).
  cbv zeta in H. destruct H as (_ & _ & _ & _ & _ & ->).
  cbn [roast_factors roast_score].
  set (questionable := truthy _). set (drought := py_eq _ _).
  destruct (factors_arithmetic questionable overuse drought abandonment awkward
              night_owl lazy) as (Hlen & Hmod & Hzero).
  cbv zeta in Hlen, Hmod, Hzero.
  split; [eexists; apply factors_picked | ].
  split; [rewrite factors_picked; apply NoDup_pick, all_factor_tags_distinct | ].
  split; [apply Nat.leb_le; exact Hlen | ].
  split; [exact Hmod | ].
  destruct (factors_of questionable overuse drought abandonment awkward
              night_owl lazy) eqn:Hfactors.
  - apply Z.eqb_eq in Hzero. tauto.
  - apply Z.eqb_neq in Hzero. split; [tauto | discriminate].
Qed.

(** X12. The level and the message of a result follow from its score alone,
    and the level tells the tier back: [highly_roastable] with its message
    exactly from 60 up, [moderately_roastable] with its message exactly from
    30 to 59, [minimally_roastable] with its message exactly below 30; the
    four suggestions are always the same. *)
Theorem level_and_message_follow_score (request : RoastRequest)
  (r : RoastPotential) :
  analyze_roast_potential request = Ok r ->
  (r.(roastability_level) = "highly_roastable" <-> 60 <= r.(roast_score)) /\
  (r.(roastability_level) = "moderately_roastable" <->
     30 <= r.(roast_score) < 60) /\
  (r.(roastability_level) = "minimally_roastable" <-> r.(roast_score) < 30) /\
  (r.(potential_message) = highly_message <-> 60 <= r.(roast_score)) /\
  (r.(potential_message) = moderately_message <-> 30 <= r.(roast_score) < 60) /\
  (r.(potential_message) = minimally_message <-> r.(roast_score) < 30) /\
  r.(suggestions) = fixed_suggestions.
Proof.
  intro H. apply analyze_run in H.
  destruct H as (overuse & abandonment & awkward & night_owl & lazy & H).
  cbv zeta in H. destruct H as (_ & _ & _ & _ & _ & ->).
  cbn [roast_score roastability_level potential_message suggestions].
  generalize (total_weight
                (factors_of
                   (truthy
                      (dict_get (commitLanguage (analysis request))
                         "questionableMessages" (VList [])))
                   overuse
                   (py_eq (dict_get (emojiUsage (analysis request)) "count" (VInt 0))
                      (VInt 0))
                   abandonment awkward night_owl lazy)).
  intro score. unfold tier.
  destruct (Z.leb_spec 60 score), (Z.leb_spec 30 score); cbn [fst snd];
    repeat split; intros; try lia; try reflexivity;
    match goal with
    | H : _ = _ |- _ =>
        exfalso; revert H; unfold highly_message, moderately_message,
          minimally_message; discriminate
    end.
Qed.

End ScorerProperties.

Section PromptProperties.

Variable py : interpreter.

(** ** The most active time of day *)

Lemma int_dict_get (d : dict) (k : string) :
  forallb is_int (values d) = true -> In k (keys d) ->
  dict_get d k VNone = VInt (count_of d k).
Proof.
  intros Hints Hk. unfold count_of.
  assert (Hv : exists z, dict_get d k VNone = VInt z).
  { unfold dict_get.
    destruct (lookup k d) as [v | ] eqn:Hlookup.
    - rewrite forallb_forall in Hints.
      pose proof (Hints v (lookup_In k d v Hlookup)) as Hint.
      destruct v; try discriminate Hint. eauto.
    - exfalso. clear Hints. induction d as [ | [k' w] r IH]; simpl in *.
      + exact Hk.
      + destruct (String.eqb_spec k k') as [Heq | Hneq]; [discriminate | ].
        destruct Hk as [Hk | Hk]; [congruence | auto]. }
  destruct Hv as [z Hz]. rewrite Hz. reflexivity.
Qed.

(** [max] walks the keys from the left and replaces its candidate only by a
    key with a strictly larger count: it ends on the first key that holds
    the largest count. *)
Lemma max_by_first_maximum (d : dict) (rest : list string) :
  forall best before between,
    (forall k, In k (best :: rest) ->
               dict_get d k VNone = VInt (count_of d k)) ->
    (forall k, In k before -> count_of d k < count_of d best) ->
    (forall k, In k between -> count_of d k <= count_of d best) ->
    exists winner earlier later,
      max_by (fun k => dict_get d k VNone) best (dict_get d best VNone) rest
        = Ok winner /\
      (before ++ best :: between ++ rest = earlier ++ winner :: later)%list /\
      (forall k, In k earlier -> count_of d k < count_of d winner) /\
      (forall k, In k later -> count_of d k <= count_of d winner).
Proof.
  induction rest as [ | next rest IH]; intros best before between Hint Hlt Hle.
  - exists best, before, between. rewrite app_nil_r. simpl. auto.
  - cbn [max_by].
    rewrite (Hint next (or_intror (or_introl eq_refl))).
    rewrite (Hint best (or_introl eq_refl)).
    rewrite py_gt_ints. cbn [bind].
    destruct (Z.ltb_spec (count_of d best) (count_of d next)) as [Hgt | Hngt].
    + rewrite <- (Hint next (or_intror (or_introl eq_refl))).
      destruct (IH next (before ++ best :: between)%list [])
        as (winner & earlier & later & Hmax & Hsplit & Hearlier & Hlater).
      * intros k [Hk | Hk]; apply Hint; simpl; auto.
      * intros k Hk. apply in_app_iff in Hk. destruct Hk as [Hk | [Hk | Hk]].
        -- specialize (Hlt k Hk). lia.
        -- subst k. exact Hgt.
        -- specialize (Hle k Hk). lia.
      * intros k [].
      * exists winner, earlier, later.
        split; [exact Hmax | split; [ | auto]].
        rewrite <- Hsplit. rewrite <- !app_assoc. reflexivity.
    + rewrite <- (Hint best (or_introl eq_refl)).
      destruct (IH best before (between ++ [next])%list)
        as (winner & earlier & later & Hmax & Hsplit & Hearlier & Hlater).
      * intros k [Hk | Hk]; apply Hint; simpl; auto.
      * exact Hlt.
      * intros k Hk. apply in_app_iff in Hk. destruct Hk as [Hk | [Hk | []]].
        -- exact (Hle k Hk).
        -- subst k. exact Hngt.
      * exists winner, earlier, later.
        split; [exact Hmax | split; [ | auto]].
        rewrite <- Hsplit. rewrite <- !app_assoc. reflexivity.
Qed.

(** X13. With a non-empty [timeOfDay] of integer counts, the "Most Active
    Time" line of the prompt (the sixteenth of the template) names the first
    key, in the mapping's order, that holds the largest count: every key
    before it has a strictly smaller count and no key after it a larger
    one. *)
Theorem most_active_time_is_first_maximum (request : RoastRequest)
  (times : dict) (prompt : string) :
  lookup "timeOfDay" request.(analysis).(commitPatterns) = Some (VDict times) ->
  times <> [] ->
  forallb is_int (values times) = true ->
  create_roast_prompt py request = Ok prompt ->
  exists lines winner earlier later,
    prompt = String.concat nl lines /\
    nth_error lines 15 = Some ("- Most Active Time: " ++ winner) /\
    keys times = (earlier ++ winner :: later)%list /\
    (forall k, In k earlier -> count_of times k < count_of times winner) /\
    (forall k, In k later -> count_of times k <= count_of times winner).
Proof.
  intros Htimes Hsome Hints H.
  assert (Hget :
    dict_get (commitPatterns (analysis request)) "timeOfDay" (VDict []) =
    VDict times) by (unfold dict_get; rewrite Htimes; reflexivity).
  unfold create_roast_prompt in H. cbv zeta in H.
  rewrite Hget in H.
  destruct times as [ | [first count] rest]; [congruence | ].
  destruct (max_by_first_maximum ((first, count) :: rest) (keys rest) first [] [])
    as (winner & earlier & later & Hmax & Hsplit & Hearlier & Hlater).
  - intros k Hk. apply int_dict_get; [exact Hints | exact Hk].
  - intros k [].
  - intros k [].
  - assert (Hactive :
      (if truthy (VDict ((first, count) :: rest))
       then py_max_key (VDict ((first, count) :: rest))
       else Ok "unknown") = Ok winner) by exact Hmax.
    rewrite Hactive in H. cbn [bind] in H.
    repeat step H.
    apply (f_equal (fun r => match r with Ok p => p | Raise _ => "" end)) in H.
    cbv beta iota in H. subst prompt.
    eexists. exists winner, earlier, later.
    split; [reflexivity | ].
    split; [reflexivity | ].
    split; [exact Hsplit | auto].
Qed.

(** ** What the prompt shows for absent keys *)

(** X14. When the analysis bundles hold none of the keys the prompt reads,
    and the user's three counters and the two list lengths have at most 4300
    digits, the prompt is still built and shows the defaults: an account age
    of 0 days, "None detected" for the languages, "unknown" for the most
    active time, 0 emojis, 0 abandoned repos and one-commit wonders, ratios
    of 0.0, and empty lists of top emojis, naming patterns and questionable
    messages. *)
Theorem absent_keys_show_defaults (request : RoastRequest) :
  let analysis := request.(analysis) in
  counters_printable request = true ->
  lookup "accountAge" analysis.(userStats) = None ->
  lookup "followRatio" analysis.(userStats) = None ->
  lookup "repoToStarRatio" analysis.(userStats) = None ->
  lookup "languages" analysis.(repoAnalysis) = None ->
  lookup "abandonedRepos" analysis.(repoAnalysis) = None ->
  lookup "oneCommitWonders" analysis.(repoAnalysis) = None ->
  lookup "namingPatterns" analysis.(repoAnalysis) = None ->
  lookup "timeOfDay" analysis.(commitPatterns) = None ->
  lookup "questionableMessages" analysis.(commitLanguage) = None ->
  lookup "count" analysis.(emojiUsage) = None ->
  lookup "topEmojis" analysis.(emojiUsage) = None ->
  exists lines,
    create_roast_prompt py request = Ok (String.concat nl lines) /\
    nth_error lines 8 = Some "- Account Age: 0 days" /\
    nth_error lines 14 = Some "- Primary Languages: None detected" /\
    nth_error lines 15 = Some "- Most Active Time: unknown" /\
    nth_error lines 17 = Some "- Emoji Usage: 0 emojis found" /\
    nth_error lines 18 = Some "- Top Emojis: " /\
    nth_error lines 22 = Some "- Abandoned Repos: 0" /\
    nth_error lines 23 = Some "- One-Commit Wonders: 0" /\
    nth_error lines 24 = Some "- Naming Patterns: " /\
    nth_error lines 25 = Some "- Average Stars per Repo: 0.0" /\
    nth_error lines 28 = Some "- Follow Ratio: 0.0 (followers/following)" /\
    nth_error lines 31 = Some "".
Proof.
  cbv zeta. intros H Hage Hfollow Hstars Hlanguages Habandoned Hwonders Hnaming
    Htimes Hquestionable Hcount Hemojis.
  unfold counters_printable in H.
  apply andb_true_iff in H. destruct H as [H Hrepos].
  apply andb_true_iff in H. destruct H as [H Hcommits].
  apply andb_true_iff in H. destruct H as [H Hfollowing].
  apply andb_true_iff in H. destruct H as [Hpublic Hfollowers].
  unfold create_roast_prompt, dict_get.
  rewrite Hage, Hfollow, Hstars, Hlanguages, Habandoned, Hwonders, Hnaming,
    Htimes, Hquestionable, Hcount, Hemojis.
  rewrite (int_str_fits _ Hpublic), (int_str_fits _ Hfollowers),
    (int_str_fits _ Hfollowing), (int_str_fits _ Hcommits),
    (int_str_fits _ Hrepos).
  eexists. split; [reflexivity | ].
  repeat split; reflexivity.
Qed.

(** ** What the prompt never shows *)

Lemma bind_ext {A B : Type} (r : result A) (k k' : A -> result B) :
  (forall a, k a = k' a) -> bind r k = bind r k'.
Proof. intro H. destruct r; simpl; [apply H | reflexivity]. Qed.

(** X15. The prompt uses the commits only through their number, and the
    repos beyond the third only through theirs: two requests that differ in
    nothing else get the same prompt. *)
Theorem prompt_ignores_commit_contents
  (the_user : GitHubUserData) (the_analysis : UserAnalysis)
  (first_three more more' : list GitHubRepo)
  (some_commits other_commits : list GitHubCommit) :
  List.length first_three = 3%nat ->
  List.length more = List.length more' ->
  List.length some_commits = List.length other_commits ->
  create_roast_prompt py
    {| user := the_user; repos := (first_three ++ more)%list;
       commits := some_commits; analysis := the_analysis |} =
  create_roast_prompt py
    {| user := the_user; repos := (first_three ++ more')%list;
       commits := other_commits; analysis := the_analysis |}.
Proof.
  intros Hthree Hmore Hcommits.
  unfold create_roast_prompt. cbn [user repos commits analysis].
  assert (Hshown : forall rest : list GitHubRepo,
            firstn 3 (first_three ++ rest) = first_three).
  { intro rest. rewrite firstn_app, Hthree, Nat.sub_diag, firstn_O, app_nil_r.
    apply firstn_all2. lia. }
  rewrite !length_app, Hmore, Hcommits, !Hshown.
  reflexivity.
Qed.

(** X16. Of [questionableMessages] only the first three entries reach the
    prompt: two requests that differ only in the later entries of that list
    get the same prompt (the first slice, to five, changes nothing). *)
Theorem only_three_questionable_shown
  (the_user : GitHubUserData) (the_repos : list GitHubRepo)
  (the_commits : list GitHubCommit)
  (patterns emoji language language' repo stats : dict)
  (messages messages' : list value) :
  dict_get language "questionableMessages" (VList []) = VList messages ->
  dict_get language' "questionableMessages" (VList []) = VList messages' ->
  firstn 3 messages = firstn 3 messages' ->
  create_roast_prompt py
    {| user := the_user; repos := the_repos; commits := the_commits;
       analysis :=
         {| commitPatterns := patterns; emojiUsage := emoji;
            commitLanguage := language; repoAnalysis := repo;
            userStats := stats |} |} =
  create_roast_prompt py
    {| user := the_user; repos := the_repos; commits := the_commits;
       analysis :=
         {| commitPatterns := patterns; emojiUsage := emoji;
            commitLanguage := language'; repoAnalysis := repo;
            userStats := stats |} |}.
Proof.
  intros Hmessages Hmessages' Hsame.
  unfold create_roast_prompt.
  cbn [user repos commits analysis commitPatterns emojiUsage commitLanguage
       repoAnalysis userStats].
  rewrite Hmessages, Hmessages'.
  assert (Hthree : forall l : list value, firstn 3 (firstn 5 l) = firstn 3 l).
  { intro l. rewrite firstn_firstn. reflexivity. }
  apply bind_ext. intro language_keys.
  apply bind_ext. intro most_active.
  cbn [bind py_slice_to].
  do 18 (apply bind_ext; intro).
  cbn [py_slice_to py_items bind]. rewrite !Hthree, Hsame. reflexivity.
Qed.

(** ** A [languages] that is not a mapping *)

(** X17. When [languages] is present and is not a mapping, building the
    prompt raises [AttributeError] before anything else is looked at, and
    [/generate-roasts] answers with the fallback response without consulting
    the client. *)
Theorem languages_must_be_a_mapping (request : RoastRequest) (v : value)
  (api_key : option string)
  (generate_content : string -> result (option GeneratedRoasts)) :
  lookup "languages" request.(analysis).(repoAnalysis) = Some v ->
  is_dict v = false ->
  create_roast_prompt py request = Raise AttributeError /\
  generate_roasts py api_key generate_content request =
    fallback_response py request.
Proof.
  intros Hlanguages Hv.
  assert (Hprompt : create_roast_prompt py request = Raise AttributeError).
  { assert (Hget :
      dict_get (repoAnalysis (analysis request)) "languages" (VDict []) = v)
      by (unfold dict_get; rewrite Hlanguages; reflexivity).
    unfold create_roast_prompt. cbv zeta. rewrite Hget.
    destruct v; try discriminate Hv; reflexivity. }
  split; [exact Hprompt | ].
  rewrite handler_cases, Hprompt.
  destruct (key_missing api_key); reflexivity.
Qed.

(** ** A counter too long to print *)


End PromptProperties.

(** * Closed instances of the further properties *)

Lemma no_ai_answer_means_fallback_sample :
  generate_roasts stand_in (Some "key") failing_client
    sample_request =
    Ok {| roasts :=
            [ night_owl_roast; abandoned_repos_roast "1"; follow_ratio_roast ];
          source := "fallback";
          overall_tone := "mysterious";
          metadata := None |}.
Proof.
  change (generate_roasts stand_in (Some "key")
            failing_client sample_request =
          fallback_response stand_in sample_request).
  apply (no_ai_answer_means_fallback stand_in).
  intros prompt data _ Hcall. discriminate Hcall.
Defined.

Lemma ai_answer_passes_through_sample :
  exists categories severities,
    generate_roasts stand_in (Some "key") answering_client
      sample_request =
      Ok {| roasts := [ "Nice TODO app."; "3 AM again?" ];
            source := "ai";
            overall_tone := "chaos_engineer";
            metadata := Some (categories, severities) |} /\
    List.length categories = 2%nat /\
    List.length severities = 2%nat.
Proof.
  destruct (ai_answer_passes_through stand_in
              (Some "key") answering_client sample_request _ _
              eq_refl eq_refl eq_refl ltac:(discriminate))
    as (categories & severities & Hanswer & Hc & Hs & _).
  exists categories, severities.
  split; [exact Hanswer | split; [exact Hc | exact Hs]].
Defined.

Lemma handler_fails_only_with_fallback_null_ratio :
  generate_roasts stand_in (Some "key") answering_client
    null_follow_ratio_request = Raise TypeError /\
  generate_fallback_roasts stand_in
    null_follow_ratio_request = Raise TypeError /\
  is_builtin_error TypeError = true.
Proof.
  split; [reflexivity | ].
  exact (handler_fails_only_with_fallback stand_in
           (Some "key") answering_client null_follow_ratio_request TypeError
           eq_refl).
Defined.

Lemma every_answer_has_a_roast_sample :
  generate_roasts stand_in (Some "key") answering_client
    sample_request = Ok sample_ai_response /\
  sample_ai_response.(roasts) <> [] /\
  ((sample_ai_response.(source) = "fallback" /\
    sample_ai_response.(overall_tone) = "mysterious" /\
    sample_ai_response.(metadata) = None /\
    generate_fallback_roasts stand_in sample_request
      = Ok sample_ai_response.(roasts) /\
    (3 <= List.length sample_ai_response.(roasts) <= 5)%nat) \/
   (sample_ai_response.(source) = "ai" /\
    exists categories severities,
      sample_ai_response.(metadata) = Some (categories, severities) /\
      List.length categories = List.length sample_ai_response.(roasts) /\
      List.length severities = List.length sample_ai_response.(roasts))).
Proof.
  split; [reflexivity | ].
  exact (every_answer_has_a_roast stand_in (Some "key")
           answering_client sample_request sample_ai_response eq_refl).
Defined.

Lemma fallback_keeps_3_to_5_sample :
  exists l rules,
    generate_fallback_roasts stand_in sample_request
      = Ok l /\
    in_rule_order sample_request.(user).(login) rules /\
    (List.length rules <= 5)%nat /\
    l = (rules ++ (if (List.length rules <? 3)%nat then filler_roasts else []))%list /\
    (3 <= List.length l <= 5)%nat.
Proof.
  destruct (fallback_keeps_3_to_5 stand_in
              sample_request _ eq_refl) as (rules & Hrules).
  eexists. exists rules. split; [reflexivity | exact Hrules].
Defined.

Lemma fallback_never_repeats_idle :
  exists l,
    generate_fallback_roasts stand_in idle_request = Ok l /\
    NoDup l.
Proof.
  eexists. split; [reflexivity | ].
  exact (fallback_never_repeats stand_in idle_request _
           eq_refl).
Defined.

Lemma account_age_block_bare :
  dict_get bare_request.(analysis).(userStats) "accountAge" (VInt 0) = VInt 0 /\
  exists l,
    generate_fallback_roasts stand_in bare_request = Ok l /\
    hd_error l = Some (new_account_roast "testuser").
Proof.
  split; [reflexivity | ].
  eexists. split; [reflexivity | ].
  apply (account_age_block stand_in bare_request 0 _
           eq_refl eq_refl).
  reflexivity.
Defined.

Lemma emoji_thresholds_differ_twelve :
  dict_get twelve_emoji_request.(analysis).(emojiUsage) "count" (VInt 0)
    = VInt 12 /\
  exists l r,
    generate_fallback_roasts stand_in twelve_emoji_request
      = Ok l /\
    analyze_roast_potential twelve_emoji_request = Ok r /\
    In emoji_overuse_roast l /\
    ~ In "emoji_overuse" r.(roast_factors) /\
    ~ In "emoji_drought" r.(roast_factors).
Proof.
  split; [reflexivity | ].
  destruct (emoji_thresholds_differ stand_in
              twelve_emoji_request 12 eq_refl ltac:(lia))
    as [Hfallback Hscorer].
  eexists. eexists.
  split; [reflexivity | split; [reflexivity | ]].
  split; [exact (Hfallback _ eq_refl) | exact (Hscorer _ eq_refl)].
Defined.

Lemma abandoned_thresholds_differ_sample :
  dict_get sample_request.(analysis).(repoAnalysis) "abandonedRepos" (VInt 0)
    = VInt 1 /\
  exists l r,
    generate_fallback_roasts stand_in sample_request
      = Ok l /\
    analyze_roast_potential sample_request = Ok r /\
    In (abandoned_repos_roast "1") l /\
    ~ In "repo_abandonment" r.(roast_factors).
Proof.
  split; [reflexivity | ].
  destruct (abandoned_thresholds_differ stand_in
              sample_request 1 eq_refl ltac:(lia))
    as [Hfallback Hscorer].
  eexists. eexists.
  split; [reflexivity | split; [reflexivity | ]].
  split; [exact (Hfallback _ eq_refl) | exact (Hscorer _ eq_refl)].
Defined.

Lemma drought_agrees_across_engines_bare :
  exists l r,
    generate_fallback_roasts stand_in bare_request = Ok l /\
    analyze_roast_potential bare_request = Ok r /\
    In emoji_drought_roast l /\
    In "emoji_drought" r.(roast_factors).
Proof.
  eexists. eexists.
  split; [reflexivity | split; [reflexivity | ]].
  destruct (drought_agrees_across_engines stand_in
              bare_request _ _ eq_refl eq_refl) as [Hfallback Hscorer].
  split; [apply Hfallback | apply Hscorer]; reflexivity.
Defined.

Lemma factors_in_rule_order_sample :
  analyze_roast_potential sample_request = Ok sample_potential /\
  (exists flags, sample_potential.(roast_factors) = pick flags all_factor_tags) /\
  NoDup sample_potential.(roast_factors) /\
  (List.length sample_potential.(roast_factors) <= 6)%nat /\
  sample_potential.(roast_score) mod 5 = 0 /\
  (sample_potential.(roast_score) = 0 <-> sample_potential.(roast_factors) = []).
Proof.
  split; [reflexivity | ].
  exact (factors_in_rule_order sample_request sample_potential eq_refl).
Defined.

Lemma level_and_message_follow_score_sample :
  analyze_roast_potential sample_request = Ok sample_potential /\
  sample_potential.(roastability_level) = "moderately_roastable" /\
  sample_potential.(potential_message) = moderately_message /\
  30 <= sample_potential.(roast_score) < 60.
Proof.
  split; [reflexivity | ].
  destruct (level_and_message_follow_score sample_request sample_potential
              eq_refl) as (_ & Hlevel & _ & _ & Hmessage & _).
  split; [reflexivity | split; [reflexivity | ]].
  apply Hlevel. reflexivity.
Defined.

Lemma most_active_time_is_first_maximum_sample :
  exists prompt lines winner earlier later,
    create_roast_prompt stand_in sample_request = Ok prompt /\
    prompt = String.concat nl lines /\
    nth_error lines 15 = Some ("- Most Active Time: " ++ winner) /\
    [ "morning"; "afternoon"; "evening"; "night" ]
      = (earlier ++ winner :: later)%list /\
    (forall k, In k earlier ->
       count_of [ ("morning", VInt 0); ("afternoon", VInt 1);
                  ("evening", VInt 0); ("night", VInt 4) ] k <
       count_of [ ("morning", VInt 0); ("afternoon", VInt 1);
                  ("evening", VInt 0); ("night", VInt 4) ] winner).
Proof.
  destruct (most_active_time_is_first_maximum stand_in sample_request
              [ ("morning", VInt 0); ("afternoon", VInt 1);
                ("evening", VInt 0); ("night", VInt 4) ] _
              eq_refl ltac:(discriminate) eq_refl eq_refl)
    as (lines & winner & earlier & later & Hprompt & Hline & Hkeys & Hearlier & _).
  eexists. exists lines, winner, earlier, later.
  split; [reflexivity | ].
  split; [exact Hprompt | split; [exact Hline | split; [exact Hkeys | exact Hearlier]]].
Defined.

Lemma absent_keys_show_defaults_bare :
  counters_printable bare_request = true /\
  exists lines,
    create_roast_prompt stand_in bare_request = Ok (String.concat nl lines) /\
    nth_error lines 8 = Some "- Account Age: 0 days" /\
    nth_error lines 14 = Some "- Primary Languages: None detected" /\
    nth_error lines 15 = Some "- Most Active Time: unknown" /\
    nth_error lines 17 = Some "- Emoji Usage: 0 emojis found" /\
    nth_error lines 18 = Some "- Top Emojis: " /\
    nth_error lines 22 = Some "- Abandoned Repos: 0" /\
    nth_error lines 23 = Some "- One-Commit Wonders: 0" /\
    nth_error lines 24 = Some "- Naming Patterns: " /\
    nth_error lines 25 = Some "- Average Stars per Repo: 0.0" /\
    nth_error lines 28 = Some "- Follow Ratio: 0.0 (followers/following)" /\
    nth_error lines 31 = Some "".
Proof.
  split; [reflexivity | ].
  exact (absent_keys_show_defaults stand_in bare_request eq_refl
           eq_refl eq_refl eq_refl eq_refl eq_refl eq_refl eq_refl eq_refl
           eq_refl eq_refl eq_refl).
Defined.

Lemma prompt_ignores_commit_contents_sample :
  create_roast_prompt stand_in
    {| user := sample_user; repos := (sample_repos ++ [])%list;
       commits := sample_commits; analysis := sample_analysis |} =
  create_roast_prompt stand_in
    {| user := sample_user; repos := (sample_repos ++ [])%list;
       commits := rev sample_commits; analysis := sample_analysis |}.
Proof.
  exact (prompt_ignores_commit_contents stand_in sample_user sample_analysis
           sample_repos [] [] sample_commits (rev sample_commits)
           eq_refl eq_refl eq_refl).
Defined.

Lemma only_three_questionable_shown_sample :
  create_roast_prompt stand_in
    {| user := sample_user; repos := sample_repos; commits := sample_commits;
       analysis :=
         {| commitPatterns := sample_commitPatterns;
            emojiUsage := sample_emojiUsage;
            commitLanguage := sample_commitLanguage;
            repoAnalysis := sample_repoAnalysis;
            userStats := sample_userStats |} |} =
  create_roast_prompt stand_in
    {| user := sample_user; repos := sample_repos; commits := sample_commits;
       analysis :=
         {| commitPatterns := sample_commitPatterns;
            emojiUsage := sample_emojiUsage;
            commitLanguage := three_messages_commitLanguage;
            repoAnalysis := sample_repoAnalysis;
            userStats := sample_userStats |} |}.
Proof.
  exact (only_three_questionable_shown stand_in sample_user sample_repos
           sample_commits sample_commitPatterns sample_emojiUsage
           sample_commitLanguage three_messages_commitLanguage
           sample_repoAnalysis sample_userStats _ _ eq_refl eq_refl eq_refl).
Defined.

Lemma languages_must_be_a_mapping_sample :
  create_roast_prompt stand_in list_languages_request
    = Raise AttributeError /\
  generate_roasts stand_in (Some "key") answering_client
    list_languages_request =
    fallback_response stand_in list_languages_request.
Proof.
  exact (languages_must_be_a_mapping stand_in
           list_languages_request _ (Some "key") answering_client
           eq_refl eq_refl).
Defined.

Lemma analyze_typed_returns_sample :
  scorer_typed sample_request = true /\
  exists r, analyze_roast_potential sample_request = Ok r.
Proof.
  split; [reflexivity | ].
  exact (analyze_typed_returns sample_request eq_refl).
Defined.

Lemma huge_abandoned_count_raises_limit :
  dict_get huge_abandoned_request.(analysis).(repoAnalysis) "abandonedRepos"
    (VInt 0) = VInt int_str_limit /\
  10 ^ 4300 <= int_str_limit /\
  generate_fallback_roasts stand_in huge_abandoned_request = Raise ValueError /\
  exists e,
    generate_fallback_roasts stand_in huge_abandoned_request = Raise e /\
    is_builtin_error e = true.
Proof.
  split; [reflexivity | ].
  split; [exact (Z.eq_le_incl _ _ (eq_sym int_str_limit_value)) | ].
  split; [reflexivity | ].
  exact (huge_abandoned_count_raises stand_in huge_abandoned_request int_str_limit eq_refl
           (Z.eq_le_incl _ _ (eq_sym int_str_limit_value))).
Defined.

